(** * FederatedOpenWallet: the transaction validators of [fedow_core]

    A shallow embedding of [fedow_core/utils.py] (signature verification)
    and [fedow_core/serializers.py] (the wallet-to-wallet transaction
    validator, the refund/void sweep, the badge validator and the wallet
    fusion of [WalletCreateSerializer]), with the properties the
    specification states about them.

    Conventions.
    - A Python call either returns a value, raises
      [serializers.ValidationError] (the validators' way of rejecting a
      request) or raises some other exception: type [outcome].
    - Rows of the database are referred to by their primary key; two model
      instances are [==] in Python exactly when their keys are equal.
    - The validators run against the database: type [DB], threaded through
      the computations of type [M]. *)

From Stdlib Require Import ZArith Lia Ascii String.
From stdpp Require Import gmap strings list fin_maps.

Local Open Scope string_scope.
Local Open Scope Z_scope.

(** ** Outcomes of a Python call *)

(** Exceptions other than [serializers.ValidationError] that the modelled
    code can let through. *)
Inductive exn : Type :=
| InvalidSignature      (* cryptography.exceptions.InvalidSignature *)
| ValueError            (* load_pem_public_key on data that is not a PEM key *)
| UnsupportedAlgorithm  (* load_pem_public_key on a key type it cannot load *)
| BinasciiError         (* base64 decoding of a malformed string *)
| AttributeError        (* attribute access on None *)
| KeyError.             (* a missing dictionary key *)

Inductive outcome (A : Type) : Type :=
| Return (a : A)
| ValidationError (msg : string)
| Raise (e : exn).

Arguments Return {A} a.
Arguments ValidationError {A} msg.
Arguments Raise {A} e.

Definition is_return {A} (o : outcome A) : bool :=
  match o with Return _ => true | _ => false end.

Definition is_rejected {A} (o : outcome A) : bool :=
  match o with ValidationError _ => true | _ => false end.

(** ** [utils.py]: signature verification *)

Module Utils.

(** The [cryptography] package and [base64] are libraries, not code of this
  repository: their entry points are the parameters of the section. Each
  one returns its value or the exception it raises. *)
Section VerifySignature.

Variable RSAPublicKey : Type.
Variable bytes : Type.

(** [str.encode('utf-8')]. *)
Variable encode : string -> bytes.
(** [serialization.load_pem_public_key]. *)
Variable load_pem_public_key : bytes -> exn + RSAPublicKey.
(** [base64.urlsafe_b64decode]. *)
Variable urlsafe_b64decode : string -> exn + bytes.
(** [public_key.verify(signature, data, PSS(MGF1(SHA256), MAX_LENGTH),
  SHA256)]: returns [None], or raises (InvalidSignature on a mismatch). *)
Variable pss_sha256_verify : RSAPublicKey -> bytes -> bytes -> exn + unit.

(** The body of the [try] block, statement by statement; Python evaluates
  the arguments of [verify] left to right before the call. *)
Definition verify_signature_try (public_key message signature : string)
: exn + bool :=
match load_pem_public_key (encode public_key) with
| inl e => inl e
| inr key =>
    match urlsafe_b64decode signature with
    | inl e => inl e
    | inr sig =>
        match pss_sha256_verify key sig (encode message) with
        | inl e => inl e
        | inr tt => inr true
        end
    end
end.

(** [try: ... return True / except InvalidSignature: return False]. *)
Definition verify_signature (public_key message signature : string)
: outcome bool :=
match verify_signature_try public_key message signature with
| inr b => Return b
| inl InvalidSignature => Return false
| inl e => Raise e
end.

End VerifySignature.

(** A small stand-in for the libraries, to run [verify_signature] on
  concrete strings: a key is accepted when it carries the PEM header, a
  signature decodes when its length is a multiple of four (the padding
  rule of base64), and a signature matches when it equals the message. *)
Definition pem_header : string := "-----BEGIN PUBLIC KEY-----".

Definition toy_load_pem (b : string) : exn + string :=
if String.prefix pem_header b then inr b else inl ValueError.

Definition toy_b64decode (s : string) : exn + string :=
if (Z.of_nat (String.length s) mod 4 =? 0) then inr s else inl BinasciiError.

Definition toy_verify (key sig msg : string) : exn + unit :=
if String.eqb sig msg then inr tt else inl InvalidSignature.

Definition toy_verify_signature : string -> string -> string -> outcome bool :=
verify_signature string string (fun s => s) toy_load_pem toy_b64decode toy_verify.

End Utils.

(** ** The data model of [serializers.py]

    Model instances are referred to by primary key. *)

Abbreviation wallet_pk := positive (only parsing).
Abbreviation asset_pk := positive (only parsing).
Abbreviation card_pk := positive (only parsing).
Abbreviation place_pk := positive (only parsing).
Abbreviation user_pk := positive (only parsing).
Abbreviation checkout_pk := positive (only parsing).

Module Asset.
(** [Asset.CATEGORIES]: the four categories the serializers name, and the
    category of the externally-backed asset. *)
Inductive category : Type :=
| TOKEN_LOCAL_FIAT
| TOKEN_LOCAL_NOT_FIAT
| EXTERNAL_PRIMARY
| SUBSCRIPTION
| BADGE.

#[global] Instance category_eq_dec : EqDecision category.
Proof. solve_decision. Defined.
End Asset.

Module Transaction.
(** [Transaction.TYPE_ACTION]. *)
Inductive action : Type :=
| CREATION
| REFILL
| SALE
| TRANSFER
| SUBSCRIBE
| BADGE
| FUSION
| REFUND
| VOID.

#[global] Instance action_eq_dec : EqDecision action.
Proof. solve_decision. Defined.

(** The keyword arguments the serializers pass to
    [Transaction.objects.create]; an argument a call site leaves out is
    [None]. *)
Record row : Type := Row {
  ip : option string;
  checkout_stripe : option checkout_pk;
  sender : wallet_pk;
  receiver : wallet_pk;
  asset : asset_pk;
  amount : Z;
  action_ : action;
  comment : option string;
  metadata : option string;
  primary_card : option card_pk;
  card : option card_pk;
  subscription_start_datetime : option Z
}.

#[global] Instance row_eq_dec : EqDecision row.
Proof. solve_decision. Defined.
End Transaction.

(** The tables the validators read and write. [tokens] is the [Token]
    table, one token per wallet and asset, with its value; the value is a
    number of units, which [validate] compares with the integer [amount]
    of a request. [transactions] is the [Transaction] table in creation
    order; [card_user] and [card_wallet_ephemere] are the two nullable
    foreign keys of [Card] that the validators assign; [users] is the
    [FedowUser] table by email. *)
Record DB : Type := MkDB {
  tokens : gmap (wallet_pk * asset_pk) Z;
  transactions : list Transaction.row;
  card_user : gmap card_pk user_pk;
  card_wallet_ephemere : gmap card_pk wallet_pk;
  users : gmap string user_pk
}.

Definition set_tokens (t : gmap (wallet_pk * asset_pk) Z) (db : DB) : DB :=
  MkDB t (transactions db) (card_user db) (card_wallet_ephemere db) (users db).

Definition set_card (c : card_pk) (u : option user_pk) (w : option wallet_pk)
    (db : DB) : DB :=
  MkDB (tokens db) (transactions db)
       (match u with Some u => <[c := u]> (card_user db)
                   | None => delete c (card_user db) end)
       (match w with Some w => <[c := w]> (card_wallet_ephemere db)
                   | None => delete c (card_wallet_ephemere db) end)
       (users db).

(** [fedow_core/models.py] defines [Asset], [Wallet] and [Token] with
    their columns only; the other models the serializers import ([Place],
    [Card], [Transaction], ...) and the model methods they call are not
    defined there. What the serializers use of them are the fields of
    [Models]: an attribute or a method without argument is the value it
    yields for the instance, [get_or_create_user] a state transformer,
    [save_tokens] what [Transaction.save] does to the balances when a row
    is created (taken to write to the token table only), and [verify_hash]
    any boolean test of a stored row. A reverse relation that does not exist
    ([wallet.user], [wallet.card_ephemere]) reads as [None]. *)
Record Models : Type := MkModels {
  (* Wallet *)
  wallet_is_primary : wallet_pk -> bool;                 (* wallet.is_primary() *)
  wallet_user : DB -> wallet_pk -> option user_pk;        (* wallet.user *)
  wallet_card_ephemere : DB -> wallet_pk -> option card_pk; (* wallet.card_ephemere *)
  (* Asset *)
  asset_category : asset_pk -> Asset.category;            (* asset.category *)
  asset_wallet_origin : asset_pk -> wallet_pk;            (* asset.wallet_origin *)
  asset_is_stripe_primary : asset_pk -> bool;             (* asset.is_stripe_primary() *)
  (* Place *)
  place_wallet : place_pk -> wallet_pk;                   (* place.wallet *)
  place_primary_cards : place_pk -> list card_pk;         (* place.primary_cards.all() *)
  place_accepted_assets : place_pk -> list asset_pk;      (* place.accepted_assets() *)
  (* Card *)
  card_origin_place : card_pk -> place_pk;                (* card.origin.place *)
  card_get_authority_delegation : card_pk -> list wallet_pk;
  (* card.get_wallet(), from the card's [user] and [wallet_ephemere] *)
  card_get_wallet : card_pk -> option user_pk -> option wallet_pk -> wallet_pk;
  (* FedowUser *)
  user_wallet : user_pk -> wallet_pk;                     (* user.wallet *)
  get_or_create_user : string -> option string -> option wallet_pk -> DB -> user_pk * DB;
  (* Transaction: what [save] does to the balances, and [verify_hash] *)
  save_tokens : Transaction.row -> gmap (wallet_pk * asset_pk) Z
                -> gmap (wallet_pk * asset_pk) Z;
  verify_hash : DB -> Transaction.row -> bool
}.

(** ** Computations against the database *)

Definition M (A : Type) : Type := DB -> outcome A * DB.

Definition ret {A} (a : A) : M A := fun db => (Return a, db).

Definition bind {A B} (m : M A) (k : A -> M B) : M B :=
  fun db =>
    match m db with
    | (Return a, db') => k a db'
    | (ValidationError msg, db') => (ValidationError msg, db')
    | (Raise e, db') => (Raise e, db')
    end.

(** [raise serializers.ValidationError(msg)]. *)
Definition reject {A} (msg : string) : M A := fun db => (ValidationError msg, db).

(** A pure step that may raise. *)
Definition lift {A} (o : outcome A) : M A := fun db => (o, db).

Definition gets {A} (f : DB -> A) : M A := fun db => (Return (f db), db).

Definition modify (f : DB -> DB) : M unit := fun db => (Return tt, f db).

Notation "x <- c ;; k" := (bind c (fun x => k))
  (at level 20, c at level 99, k at level 200, only parsing).
Notation "c ;;; k" := (bind c (fun _ => k))
  (at level 100, k at level 200, right associativity, only parsing).

(** [for x in xs: body(x)]. *)
Fixpoint for_each {A} (xs : list A) (body : A -> M unit) : M unit :=
  match xs with
  | [] => ret tt
  | x :: rest => body x ;;; for_each rest body
  end.

(** Python's [a or b] on two optional model instances. *)
Definition or_else {A} (a b : option A) : option A :=
  match a with Some _ => a | None => b end.

(** [x in xs] on primary keys. *)
Definition mem (x : positive) (xs : list positive) : bool :=
  bool_decide (x ∈ xs).

(** [utils.get_request_ip]: the request's META entries it reads. A Python
    string is true when it is not empty. *)
Record META : Type := MkMETA {
  HTTP_X_FORWARDED_FOR : option string;
  HTTP_X_REAL_IP : option string;
  REMOTE_ADDR : option string
}.

Definition truthy (s : option string) : bool :=
  match s with Some (String _ _) => true | _ => false end.

(** [s.split(',')[0]]. *)
Fixpoint before_comma (s : string) : string :=
  match s with
  | EmptyString => EmptyString
  | String c rest =>
      if Ascii.eqb c ","%char then EmptyString else String c (before_comma rest)
  end.

Definition get_request_ip (meta : META) : option string :=
  if truthy (HTTP_X_FORWARDED_FOR meta) then
    before_comma <$> HTTP_X_FORWARDED_FOR meta
  else if truthy (HTTP_X_REAL_IP meta) then HTTP_X_REAL_IP meta
  else REMOTE_ADDR meta.

(** [card.get_wallet()] for the card as the database has it. *)
Definition get_wallet (Mo : Models) (db : DB) (c : card_pk) : wallet_pk :=
  card_get_wallet Mo c (card_user db !! c) (card_wallet_ephemere db !! c).

(** [wallet.tokens.filter(value__gt=0)]: the assets and balances of the
    wallet's tokens that hold a positive value. Iterating a queryset
    evaluates it once, before the first iteration. *)
Definition positive_tokens (db : DB) (w : wallet_pk) : list (asset_pk * Z) :=
  omap (fun '((w', a), v) =>
          if bool_decide (w' = w) && (0 <? v) then Some (a, v) else None)
       (map_to_list (tokens db)).

(** The request as the validators see it: [request.place], set by the
    API-key permission, and [request.META]. *)
Record request : Type := MkRequest {
  request_place : option place_pk;
  request_META : META
}.

(** ** [TransactionW2W] *)

Module TransactionW2W.

(** The validated fields handed to [validate]; an optional field that
    the request leaves out is [None]. *)
Record attrs : Type := Attrs {
  amount : Z;
  sender : wallet_pk;
  receiver : wallet_pk;
  asset : asset_pk;
  subscription_start_datetime : option Z;
  action : option Transaction.action;
  comment : option string;
  metadata : option string;
  checkout_stripe : option checkout_pk;
  primary_card_uuid : option card_pk;
  primary_card_fisrtTagId : option card_pk;
  user_card_uuid : option card_pk;
  user_card_firstTagId : option card_pk
}.

(** The attributes [validate] stores on the serializer before it
    classifies the request. *)
Record self : Type := Self {
  self_sender : wallet_pk;
  self_receiver : wallet_pk;
  self_asset : asset_pk;
  self_amount : Z;
  self_comment : option string;
  self_metadata : option string;
  self_checkout_stripe : option checkout_pk;
  self_subscription_start_datetime : option Z;
  self_primary_card : option card_pk;
  self_user_card : option card_pk
}.

Definition self_of (a : attrs) : self :=
  {| self_sender := sender a;
     self_receiver := receiver a;
     self_asset := asset a;
     self_amount := amount a;
     self_comment := comment a;
     self_metadata := metadata a;
     self_checkout_stripe := checkout_stripe a;
     self_subscription_start_datetime := subscription_start_datetime a;
     self_primary_card := or_else (primary_card_uuid a) (primary_card_fisrtTagId a);
     self_user_card := or_else (user_card_uuid a) (user_card_firstTagId a) |}.

(** [validate_amount]: the field-level check of [amount]. *)
Definition validate_amount (value : Z) : outcome Z :=
  if value <=? 0 then ValidationError "Amount must be positive"
  else Return value.

Section WithModels.
Context (Mo : Models).

(** The test shared by [get_action] and [validate]: a REFILL paid
    through the payment gateway. *)
Definition is_stripe_refill (s : self) (a : attrs) : bool :=
  bool_decide (action a = Some Transaction.REFILL)
  && bool_decide (is_Some (self_checkout_stripe s))
  && wallet_is_primary Mo (self_sender s)
  && asset_is_stripe_primary Mo (self_asset s).

(** [get_action], with [self.place] as the argument [place]. The
    wallets [attrs.get('sender')] and [attrs.get('receiver')] of the
    FUSION branch are [self.sender] and [self.receiver]. *)
Definition get_action (db : DB) (place : place_pk) (s : self) (a : attrs)
  : outcome Transaction.action :=
  if is_stripe_refill s a then Return Transaction.REFILL
  else if bool_decide (place_wallet Mo place = self_sender s) then
    if bool_decide (asset_category Mo (self_asset s) = Asset.SUBSCRIPTION)
    then Return Transaction.SUBSCRIBE
    else if bool_decide (asset_category Mo (self_asset s) = Asset.BADGE)
    then Return Transaction.BADGE
    else if bool_decide (self_sender s = self_receiver s) then
      if bool_decide (asset_wallet_origin Mo (self_asset s) = place_wallet Mo place)
      then ValidationError "no longuer implemented for REFILL. Send user wallet instead"
      else ValidationError "Unauthorized wallet_origin"
    else
      match self_primary_card s, self_user_card s with
      | Some _, Some _ => Return Transaction.REFILL
      | _, _ => ValidationError
                  "Primary card and user card are required for refill transaction"
      end
  else if bool_decide (place_wallet Mo place = self_receiver s) then
    match self_primary_card s with
    | None => ValidationError "Primary card is required for sale transaction"
    | Some pc =>
        if negb (mem pc (place_primary_cards Mo place))
        then ValidationError "Primary card must be in place primary cards"
        else
          match self_user_card s with
          | None => ValidationError "User card is required for sale transaction"
          | Some uc =>
              if negb (mem (self_receiver s) (card_get_authority_delegation Mo uc))
              then ValidationError "Unauthorized"
              else if negb (mem (self_asset s) (place_accepted_assets Mo place))
              then ValidationError "Asset not accepted"
              else Return Transaction.SALE
          end
    end
  else if bool_decide (action a = Some Transaction.FUSION) then
    match wallet_user Mo db (sender a),
          wallet_card_ephemere Mo db (sender a),
          wallet_user Mo db (receiver a) with
    | None, Some c, Some _ =>
        if bool_decide (card_origin_place Mo c = place)
        then Return Transaction.FUSION
        else ValidationError "No action authorized"
    | _, _, _ => ValidationError "No action authorized"
    end
  else ValidationError "No action authorized".

(** The conditions of a sale as the specification words them: a primary
    card registered with the place, a user card, the receiver in the
    authority delegation of the user card, the asset accepted by the
    place. *)
Definition sale_conditions (place : place_pk) (s : self) : Prop :=
  exists pc uc,
    self_primary_card s = Some pc
    /\ pc ∈ place_primary_cards Mo place
    /\ self_user_card s = Some uc
    /\ self_receiver s ∈ card_get_authority_delegation Mo uc
    /\ self_asset s ∈ place_accepted_assets Mo place.

(** [self.place]: the request's place or, for the gateway's webhook,
    the place that issued the user card. *)
Definition resolve_place (req : request) (s : self) (a : attrs)
  : outcome place_pk :=
  match request_place req with
  | Some p => Return p
  | None =>
      if is_stripe_refill s a then
        match self_user_card s with
        | Some c => Return (card_origin_place Mo c)
        | None => Raise AttributeError
        end
      else ValidationError "Place not found"
  end.

(** "Check if sender or receiver are a place". *)
Definition place_is_party (place : place_pk) (s : self)
    (act : Transaction.action) : bool :=
  negb (negb (bool_decide (place_wallet Mo place = self_sender s))
        && negb (bool_decide (place_wallet Mo place = self_receiver s))
        && negb (asset_is_stripe_primary Mo (self_asset s))
        && negb (bool_decide (act = Transaction.FUSION))).

(** "get sender token": [Token.objects.get] and the balance test. *)
Definition check_sender_token (s : self) (act : Transaction.action) : M unit :=
  fun db =>
    match tokens db !! (self_sender s, self_asset s) with
    | Some value =>
        if (value <? self_amount s)
           && bool_decide (act ∈ [Transaction.SALE; Transaction.TRANSFER])
        then (ValidationError "Not enough token on sender wallet", db)
        else (Return tt, db)
    | None => (ValidationError "Sender token does not exist", db)
    end.

(** "get or create receiver token". *)
Definition get_or_create_receiver_token (s : self) : M unit :=
  fun db =>
    match tokens db !! (self_receiver s, self_asset s) with
    | Some _ => (Return tt, db)
    | None =>
        (Return tt,
         set_tokens (<[(self_receiver s, self_asset s) := 0]> (tokens db)) db)
    end.

(** [Transaction.objects.create] on the dictionary [d]: the row joins the
    transaction table and [save] applies its balance effects. *)
Definition created (d : Transaction.row) (db : DB) : DB :=
  MkDB (save_tokens Mo d (tokens db)) (transactions db ++ [d])
       (card_user db) (card_wallet_ephemere db) (users db).

Definition Transaction_objects_create (d : Transaction.row) : M Transaction.row :=
  fun db => (Return d, created d db).

(** [if not t.verify_hash(): raise ...]. *)
Definition check_hash (t : Transaction.row) : M unit :=
  fun db =>
    if verify_hash Mo db t then (Return tt, db)
    else (ValidationError "Transaction hash is not valid", db).

Definition crea_transac_dict (req : request) (s : self) : Transaction.row :=
  {| Transaction.ip := get_request_ip (request_META req);
     Transaction.sender := self_sender s;
     Transaction.receiver := self_sender s;
     Transaction.asset := self_asset s;
     Transaction.comment := self_comment s;
     Transaction.metadata := self_metadata s;
     Transaction.checkout_stripe := self_checkout_stripe s;
     Transaction.amount := self_amount s;
     Transaction.action_ := Transaction.CREATION;
     Transaction.primary_card := self_primary_card s;
     Transaction.card := self_user_card s;
     Transaction.subscription_start_datetime := None |}.

Definition transaction_dict (req : request) (s : self)
    (act : Transaction.action) : Transaction.row :=
  {| Transaction.ip := get_request_ip (request_META req);
     Transaction.sender := self_sender s;
     Transaction.receiver := self_receiver s;
     Transaction.asset := self_asset s;
     Transaction.comment := self_comment s;
     Transaction.metadata := self_metadata s;
     Transaction.checkout_stripe := self_checkout_stripe s;
     Transaction.amount := self_amount s;
     Transaction.action_ := act;
     Transaction.primary_card := self_primary_card s;
     Transaction.card := self_user_card s;
     Transaction.subscription_start_datetime :=
       self_subscription_start_datetime s |}.

(** "Si c'est un refill, on génère la monnaie avant". *)
Definition mint_if_refill (req : request) (s : self)
    (act : Transaction.action) : M unit :=
  if bool_decide (act = Transaction.REFILL) then
    crea_transaction <- Transaction_objects_create (crea_transac_dict req s) ;;
    check_hash crea_transaction
  else ret tt.

(** [validate]. It returns [self.transaction]; the test
    [if not action] after [get_action] can never fire, since
    [get_action] returns one of the action constants or raises. *)
Definition validate (req : request) (a : attrs) : M Transaction.row :=
  let s := self_of a in
  place <- lift (resolve_place req s a) ;;
  act <- (fun db => (get_action db place s a, db)) ;;
  (if place_is_party place s act then ret tt else reject "Unauthorized") ;;;
  check_sender_token s act ;;;
  get_or_create_receiver_token s ;;;
  mint_if_refill req s act ;;;
  transaction <- Transaction_objects_create (transaction_dict req s act) ;;
  check_hash transaction ;;;
  ret transaction.

(** The steps of [validate] that follow the classification, from "get
    sender token" on. *)
Definition after_classification (req : request) (s : self)
    (act : Transaction.action) : M Transaction.row :=
  check_sender_token s act ;;;
  get_or_create_receiver_token s ;;;
  mint_if_refill req s act ;;;
  transaction <- Transaction_objects_create (transaction_dict req s act) ;;
  check_hash transaction ;;;
  ret transaction.

(** [is_valid()]: the field check of [amount], then [validate]. *)
Definition is_valid (req : request) (a : attrs) : M Transaction.row :=
  lift (validate_amount (amount a)) ;;;
  validate req a.

End WithModels.

End TransactionW2W.

(** ** [CardRefundOrVoidValidator] *)

Module CardRefundOrVoidValidator.

Record attrs : Type := Attrs {
  primary_card_uuid : option card_pk;
  primary_card_fisrtTagId : option card_pk;
  user_card_uuid : option card_pk;
  user_card_firstTagId : option card_pk;
  action : option Transaction.action
}.

(** [validate_action]. *)
Definition validate_action (value : Transaction.action)
  : outcome Transaction.action :=
  if bool_decide (value ∈ [Transaction.REFUND; Transaction.VOID])
  then Return value
  else ValidationError "Action must be REFUND or VOID".

Section WithModels.
Context (Mo : Models).

(** The queryset of the sweep: the wallet's tokens with a positive
    value, in an asset created by the place's wallet, of one of the two
    local token categories. *)
Definition refundable (place : place_pk) (av : asset_pk * Z) : bool :=
  bool_decide (asset_wallet_origin Mo av.1 = place_wallet Mo place)
  && bool_decide (asset_category Mo av.1
                    ∈ [Asset.TOKEN_LOCAL_FIAT; Asset.TOKEN_LOCAL_NOT_FIAT]).

Definition swept_tokens (db : DB) (place : place_pk) (w : wallet_pk)
  : list (asset_pk * Z) :=
  filter (fun av => Is_true (refundable place av)) (positive_tokens db w).

Definition transaction_dict (req : request) (place : place_pk)
    (primary_card : option card_pk) (user_card : card_pk)
    (db : DB) (av : asset_pk * Z) : Transaction.row :=
  {| Transaction.ip := get_request_ip (request_META req);
     Transaction.checkout_stripe := None;
     Transaction.sender := get_wallet Mo db user_card;
     Transaction.receiver := place_wallet Mo place;
     Transaction.asset := av.1;
     Transaction.amount := av.2;
     Transaction.action_ := Transaction.REFUND;
     Transaction.comment := None;
     Transaction.metadata := None;
     Transaction.primary_card := primary_card;
     Transaction.card := Some user_card;
     Transaction.subscription_start_datetime := None |}.

(** One turn of the loop: build the dictionary against the current
    state, create the transaction. *)
Definition refund_token (req : request) (place : place_pk)
    (primary_card : option card_pk) (user_card : card_pk)
    (av : asset_pk * Z) : M unit :=
  d <- gets (fun db => transaction_dict req place primary_card user_card db av) ;;
  TransactionW2W.Transaction_objects_create Mo d ;;;
  ret tt.

(** [validate]. Serializing the wallet and the transactions reads the
    database and does not change it. *)
Definition validate (req : request) (a : attrs) : M unit :=
  match request_place req with
  | None => lift (Raise AttributeError)
  | Some place =>
      let primary_card := or_else (primary_card_uuid a) (primary_card_fisrtTagId a) in
      let user_card := or_else (user_card_uuid a) (user_card_firstTagId a) in
      match primary_card with
      | Some pc =>
          if mem pc (place_primary_cards Mo place) then ret tt
          else reject "Primary card must be in place primary cards"
      | None => reject "Primary card must be in place primary cards"
      end ;;;
      match user_card with
      | None => reject "User card is required for void or refund"
      | Some uc =>
          swept <- gets (fun db => swept_tokens db place (get_wallet Mo db uc)) ;;
          for_each swept (refund_token req place primary_card uc) ;;;
          if bool_decide (action a = Some Transaction.VOID)
          then modify (set_card uc None None)
          else ret tt
      end
  end.

(** [is_valid()]: [validate_action] runs when the field is present. *)
Definition is_valid (req : request) (a : attrs) : M unit :=
  match action a with
  | Some v => lift (validate_action v) ;;; ret tt
  | None => ret tt
  end ;;;
  validate req a.

End WithModels.

End CardRefundOrVoidValidator.

(** ** [BadgeValidator] *)

Module BadgeValidator.

(** [self.card] and [self.primary_card] are set by the field validators
    of the two tag ids; [initial_data] is the request body. *)
Record attrs : Type := Attrs {
  self_card : card_pk;
  self_primary_card : card_pk;
  asset : asset_pk;
  initial_data : option string
}.

Section WithModels.
Context (Mo : Models).

Definition transaction_dict (req : request) (place : place_pk) (a : attrs)
    (db : DB) : Transaction.row :=
  {| Transaction.ip := get_request_ip (request_META req);
     Transaction.checkout_stripe := None;
     Transaction.sender := get_wallet Mo db (self_card a);
     Transaction.receiver := place_wallet Mo place;
     Transaction.asset := asset a;
     Transaction.amount := 0;
     Transaction.action_ := Transaction.BADGE;
     Transaction.comment := None;
     Transaction.metadata := initial_data a;
     Transaction.primary_card := Some (self_primary_card a);
     Transaction.card := Some (self_card a);
     Transaction.subscription_start_datetime := None |}.

(** [validate]; it returns [self.transaction]. *)
Definition validate (req : request) (a : attrs) : M Transaction.row :=
  match request_place req with
  | None => lift (Raise AttributeError)
  | Some place =>
      d <- gets (transaction_dict req place a) ;;
      TransactionW2W.Transaction_objects_create Mo d
  end.

End WithModels.

End BadgeValidator.

(** ** [WalletCreateSerializer] *)

Module WalletCreateSerializer.

Record attrs : Type := Attrs {
  email : string;
  card_first_tag_id : option card_pk;
  card_qrcode_uuid : option card_pk
}.

Section WithModels.
Context (Mo : Models).

(** [user, created = get_or_create_user(email, ip=ip, wallet_uuid=w)]. *)
Definition create_user (email : string) (ip : option string)
    (wallet_uuid : option wallet_pk) : M user_pk :=
  fun db => let '(u, db') := get_or_create_user Mo email ip wallet_uuid db in
            (Return u, db').

(** The dictionary of one fusion transfer. *)
Definition fusion_data (card : card_pk) (wallet_ephemere : wallet_pk)
    (user : user_pk) (av : asset_pk * Z) : TransactionW2W.attrs :=
  {| TransactionW2W.amount := av.2;
     TransactionW2W.asset := av.1;
     TransactionW2W.sender := wallet_ephemere;
     TransactionW2W.receiver := user_wallet Mo user;
     TransactionW2W.user_card_uuid := Some card;
     TransactionW2W.action := Some Transaction.FUSION;
     TransactionW2W.subscription_start_datetime := None;
     TransactionW2W.comment := None;
     TransactionW2W.metadata := None;
     TransactionW2W.checkout_stripe := None;
     TransactionW2W.primary_card_uuid := None;
     TransactionW2W.primary_card_fisrtTagId := None;
     TransactionW2W.user_card_firstTagId := None |}.

(** One turn of the fusion loop. [self.context['request']] raises
    KeyError without a request; an invalid transaction is raised again
    as a [ValidationError] (carrying the validator's errors). *)
Definition fuse_token (req : option request) (card : card_pk)
    (wallet_ephemere : wallet_pk) (user : user_pk) (av : asset_pk * Z)
  : M unit :=
  match req with
  | None => lift (Raise KeyError)
  | Some r =>
      TransactionW2W.is_valid Mo r (fusion_data card wallet_ephemere user av) ;;;
      ret tt
  end.

(** "On retire le wallet ephemere de la carte après avoir vérifié
    qu'il est bien vide": the card is read again from the database. *)
Definition retire_wallet_ephemere (card : card_pk) (user : user_pk) : M unit :=
  fun db =>
    match card_wallet_ephemere db !! card with
    | None => (Raise AttributeError, db)
    | Some w =>
        match positive_tokens db w with
        | _ :: _ => (ValidationError "Wallet ephemere not empty after fusion", db)
        | [] => (Return tt, set_card card (Some user) None db)
        end
    end.

(** The branch of [validate] for a card without user that carries an
    ephemeral wallet, claimed by an existing user. *)
Definition fusion (req : option request) (card : card_pk)
    (wallet_ephemere : wallet_pk) (user : user_pk) : M unit :=
  (if bool_decide (wallet_ephemere <> user_wallet Mo user) then
     to_fuse <- gets (fun db => positive_tokens db wallet_ephemere) ;;
     for_each to_fuse (fuse_token req card wallet_ephemere user)
   else ret tt) ;;;
  retire_wallet_ephemere card user.

(** [validate]; it returns [self.user]. *)
Definition validate (req : option request) (a : attrs) : M user_pk :=
  let ip := match req with
            | Some r => get_request_ip (request_META r)
            | None => None
            end in
  self_user <- gets (fun db => users db !! email a) ;;
  let card := or_else (card_first_tag_id a) (card_qrcode_uuid a) in
  match card, self_user with
  | None, None => create_user (email a) ip None
  | Some c, None =>
      cu <- gets (fun db => card_user db !! c) ;;
      cw <- gets (fun db => card_wallet_ephemere db !! c) ;;
      match cu, cw with
      | None, None =>
          user <- create_user (email a) ip None ;;
          modify (set_card c (Some user) None) ;;;
          ret user
      | None, Some w =>
          user <- create_user (email a) ip (Some w) ;;
          modify (set_card c (Some user) None) ;;;
          ret user
      | Some _, _ => reject "Card already linked to another user"
      end
  | Some c, Some u =>
      cu <- gets (fun db => card_user db !! c) ;;
      cw <- gets (fun db => card_wallet_ephemere db !! c) ;;
      match cu, cw with
      | None, None =>
          modify (set_card c (Some u) None) ;;;
          ret u
      | None, Some w =>
          fusion req c w u ;;;
          ret u
      | Some u', _ =>
          if bool_decide (u' = u) then ret u
          else reject "Card already linked to another user"
      end
  | None, Some _ => reject "User not found ?"
  end.

End WithModels.

End WalletCreateSerializer.

(** ** A small federation to run the validators on

    One place (key 1, wallet 10) with primary card 101; a second place
    (key 2, wallet 60); user 1 (wallet 20) holding card 102; user 2
    (wallet 40); card 103 with the ephemeral wallet 30; the gateway's
    primary wallet 50. Assets: 1001 local (created by place 1), 1002 local
    (created by place 2, accepted by place 1 through the federation), 1003
    the externally-backed asset, 1004 a subscription and 1005 a badge of
    place 1. *)

Module Demo.

Definition WP : wallet_pk := 10%positive.
Definition WP2 : wallet_pk := 60%positive.
Definition WU : wallet_pk := 20%positive.
Definition WU2 : wallet_pk := 40%positive.
Definition WE : wallet_pk := 30%positive.
Definition WS : wallet_pk := 50%positive.

Definition P : place_pk := 1%positive.
Definition P2 : place_pk := 2%positive.

Definition C1 : card_pk := 101%positive.
Definition C2 : card_pk := 102%positive.
Definition C3 : card_pk := 103%positive.

Definition U : user_pk := 1%positive.
Definition U2 : user_pk := 2%positive.

Definition LOCAL : asset_pk := 1001%positive.
Definition FED : asset_pk := 1002%positive.
Definition STRIPE : asset_pk := 1003%positive.
Definition SUB : asset_pk := 1004%positive.
Definition BDG : asset_pk := 1005%positive.

Definition category (a : asset_pk) : Asset.category :=
  if bool_decide (a = STRIPE) then Asset.EXTERNAL_PRIMARY
  else if bool_decide (a = SUB) then Asset.SUBSCRIPTION
  else if bool_decide (a = BDG) then Asset.BADGE
  else if bool_decide (a = FED) then Asset.TOKEN_LOCAL_FIAT
  else Asset.TOKEN_LOCAL_NOT_FIAT.

Definition wallet_origin (a : asset_pk) : wallet_pk :=
  if bool_decide (a = STRIPE) then WS
  else if bool_decide (a = FED) then WP2
  else WP.

Definition wallet_of_place (p : place_pk) : wallet_pk :=
  if bool_decide (p = P) then WP else WP2.

Definition wallet_of_user (u : user_pk) : wallet_pk :=
  if bool_decide (u = U) then WU else WU2.

(** The reverse relations [wallet.user] and [wallet.card_ephemere]. *)
Definition user_of_wallet (db : DB) (w : wallet_pk) : option user_pk :=
  head (omap (fun '(_, u) => if bool_decide (wallet_of_user u = w)
                             then Some u else None)
             (map_to_list (users db))).

Definition card_of_wallet (db : DB) (w : wallet_pk) : option card_pk :=
  head (omap (fun '(c, w') => if bool_decide (w' = w) then Some c else None)
             (map_to_list (card_wallet_ephemere db))).

Definition wallet_of_card (c : card_pk) (u : option user_pk)
    (w : option wallet_pk) : wallet_pk :=
  match u, w with
  | Some u, _ => wallet_of_user u
  | None, Some w => w
  | None, None => (c + 1000)%positive
  end.

Definition new_user (email : string) (ip : option string)
    (w : option wallet_pk) (db : DB) : user_pk * DB :=
  match users db !! email with
  | Some u => (u, db)
  | None =>
      (U2, MkDB (tokens db) (transactions db) (card_user db)
                (card_wallet_ephemere db) (<[email := U2]> (users db)))
  end.

(** Modelled from the spec: the balance effects of [Transaction.save],
    which [models.py] does not define. A CREATION credits the minting
    wallet with the amount; every other action debits the sender's token
    and credits the receiver's. *)
Definition balance_effects (d : Transaction.row)
    (t : gmap (wallet_pk * asset_pk) Z) : gmap (wallet_pk * asset_pk) Z :=
  let credit (t : gmap (wallet_pk * asset_pk) Z) :=
    <[(Transaction.receiver d, Transaction.asset d) :=
        default 0 (t !! (Transaction.receiver d, Transaction.asset d))
        + Transaction.amount d]> t in
  match Transaction.action_ d with
  | Transaction.CREATION => credit t
  | _ =>
      credit (<[(Transaction.sender d, Transaction.asset d) :=
                  default 0 (t !! (Transaction.sender d, Transaction.asset d))
                  - Transaction.amount d]> t)
  end.

(** The models of the federation; [hash_ok] says which rows verify. *)
Definition models (hash_ok : Transaction.row -> bool) : Models :=
  {| wallet_is_primary := fun w => bool_decide (w = WS);
     wallet_user := user_of_wallet;
     wallet_card_ephemere := card_of_wallet;
     asset_category := category;
     asset_wallet_origin := wallet_origin;
     asset_is_stripe_primary := fun a => bool_decide (a = STRIPE);
     place_wallet := wallet_of_place;
     place_primary_cards := fun p => if bool_decide (p = P) then [C1] else [];
     place_accepted_assets :=
       fun p => if bool_decide (p = P) then [LOCAL; FED; STRIPE; SUB; BDG] else [FED];
     card_origin_place := fun _ => P;
     card_get_authority_delegation := fun _ => [WP];
     card_get_wallet := wallet_of_card;
     user_wallet := wallet_of_user;
     get_or_create_user := new_user;
     save_tokens := balance_effects;
     verify_hash := fun _ t => hash_ok t |}.

Definition honest : Models := models (fun _ => true).

Definition meta : META :=
  {| HTTP_X_FORWARDED_FOR := Some "10.0.0.7, 10.0.0.1";
     HTTP_X_REAL_IP := None;
     REMOTE_ADDR := Some "127.0.0.1" |}.

Definition req : request := {| request_place := Some P; request_META := meta |}.

(** The database: the place's treasury holds 100 of its local asset and
    a badge token, user 1 holds 6 local, 5 federated and 1 subscription,
    and the ephemeral wallet of card 103 holds 5 local. *)
Definition db0 : DB :=
  {| tokens := list_to_map [((WP, LOCAL), 100); ((WP, BDG), 0);
                            ((WU, LOCAL), 6); ((WU, FED), 5); ((WU, SUB), 1);
                            ((WE, LOCAL), 5)];
     transactions := [];
     card_user := {[ C2 := U ]};
     card_wallet_ephemere := {[ C3 := WE ]};
     users := {[ "u1@example.org" := U; "u2@example.org" := U2 ]} |}.

(** A wallet-to-wallet request with both cards and no optional field. *)
Definition w2w (sender receiver : wallet_pk) (asset : asset_pk) (amount : Z)
    (action : option Transaction.action) : TransactionW2W.attrs :=
  {| TransactionW2W.amount := amount;
     TransactionW2W.sender := sender;
     TransactionW2W.receiver := receiver;
     TransactionW2W.asset := asset;
     TransactionW2W.subscription_start_datetime := None;
     TransactionW2W.action := action;
     TransactionW2W.comment := None;
     TransactionW2W.metadata := None;
     TransactionW2W.checkout_stripe := None;
     TransactionW2W.primary_card_uuid := Some C1;
     TransactionW2W.primary_card_fisrtTagId := None;
     TransactionW2W.user_card_uuid := Some C2;
     TransactionW2W.user_card_firstTagId := None |}.

(** The gateway's refill addressed to place 1, with every condition of a
    sale in place. *)
Definition gateway_refill : TransactionW2W.attrs :=
  {| TransactionW2W.amount := 10;
     TransactionW2W.sender := WS;
     TransactionW2W.receiver := WP;
     TransactionW2W.asset := STRIPE;
     TransactionW2W.subscription_start_datetime := None;
     TransactionW2W.action := Some Transaction.REFILL;
     TransactionW2W.comment := None;
     TransactionW2W.metadata := None;
     TransactionW2W.checkout_stripe := Some 1%positive;
     TransactionW2W.primary_card_uuid := Some C1;
     TransactionW2W.primary_card_fisrtTagId := None;
     TransactionW2W.user_card_uuid := Some C2;
     TransactionW2W.user_card_firstTagId := None |}.

(** A refund, and a void, of the card of user 1 at place 1. *)
Definition refund_card (action : Transaction.action)
  : CardRefundOrVoidValidator.attrs :=
  {| CardRefundOrVoidValidator.primary_card_uuid := Some C1;
     CardRefundOrVoidValidator.primary_card_fisrtTagId := None;
     CardRefundOrVoidValidator.user_card_uuid := Some C2;
     CardRefundOrVoidValidator.user_card_firstTagId := None;
     CardRefundOrVoidValidator.action := Some action |}.

(** User 2 claims card 103. *)
Definition claim_card : WalletCreateSerializer.attrs :=
  {| WalletCreateSerializer.email := "u2@example.org";
     WalletCreateSerializer.card_first_tag_id := Some C3;
     WalletCreateSerializer.card_qrcode_uuid := None |}.

(** The same federation when no card has delegated authority to a
    place. *)
Definition strangers : Models :=
  {| wallet_is_primary := wallet_is_primary honest;
     wallet_user := wallet_user honest;
     wallet_card_ephemere := wallet_card_ephemere honest;
     asset_category := asset_category honest;
     asset_wallet_origin := asset_wallet_origin honest;
     asset_is_stripe_primary := asset_is_stripe_primary honest;
     place_wallet := place_wallet honest;
     place_primary_cards := place_primary_cards honest;
     place_accepted_assets := place_accepted_assets honest;
     card_origin_place := card_origin_place honest;
     card_get_authority_delegation := fun _ => [];
     card_get_wallet := card_get_wallet honest;
     user_wallet := user_wallet honest;
     get_or_create_user := get_or_create_user honest;
     save_tokens := save_tokens honest;
     verify_hash := verify_hash honest |}.

End Demo.

(** ** [permissions.py]: [HasKeyAndCashlessSignature] *)

Module Permissions.

(** What [has_permission] reads of the request: the API key that
    [get_key] extracts, the [HTTP_SIGNATURE] header that [get_signature]
    returns, and the message [dict_to_b64(request.data)]. *)
Record request : Type := MkRequest {
  request_key : option string;
  request_signature : option string;
  request_message : string
}.

Section HasPermission.

Variable RSAPublicKey : Type.
Variable bytes : Type.
Variable encode : string -> bytes.
Variable load_pem_public_key : bytes -> exn + RSAPublicKey.
Variable urlsafe_b64decode : string -> exn + bytes.
Variable pss_sha256_verify : RSAPublicKey -> bytes -> bytes -> exn + unit.

(** The API-key rows, [self.model.objects.get_from_key] (which raises when
    no key matches), [api_key.place.cashless_public_key()] and the
    permission check of the base class [BaseHasAPIKey]. *)
Variable APIKey : Type.
Variable get_from_key : string -> exn + APIKey.
Variable cashless_public_key : APIKey -> exn + string.
Variable super_has_permission : request -> outcome bool.

(** [has_permission]. A string is true when it is not empty; a model
    instance is always true. *)
Definition has_permission (req : request) : outcome bool :=
  if truthy (request_key req) then
    match get_from_key (default "" (request_key req)) with
    | inl e => Raise e
    | inr api_key =>
        if truthy (request_signature req) then
          match cashless_public_key api_key with
          | inl e => Raise e
          | inr public_key =>
              match Utils.verify_signature RSAPublicKey bytes encode
                      load_pem_public_key urlsafe_b64decode pss_sha256_verify
                      public_key (request_message req)
                      (default "" (request_signature req)) with
              | Return true => super_has_permission req
              | Return false => Return false
              | ValidationError msg => ValidationError msg
              | Raise e => Raise e
              end
          end
        else Return false
    end
  else Return false.

End HasPermission.

(** [has_permission] over the stand-in libraries of [Utils], with one
    registered key ["k1"] whose place declares the public key [pem]. *)
Definition toy_pem : string := "-----BEGIN PUBLIC KEY-----MIIB".

Definition toy_get_from_key (k : string) : exn + unit :=
  if String.eqb k "k1" then inr tt else inl KeyError.

Definition toy_has_permission : request -> outcome bool :=
  has_permission string string (fun s => s) Utils.toy_load_pem
    Utils.toy_b64decode Utils.toy_verify unit toy_get_from_key
    (fun _ => inr toy_pem) (fun _ => Return true).

End Permissions.

(** ** [HandshakeValidator.validate_cashless_ip] *)

Module HandshakeValidator.

(** [validate_cashless_ip]: the declared address must be the one
    [get_request_ip] reads off the request. *)
Definition validate_cashless_ip (meta : META) (value : string) : outcome string :=
  if bool_decide (Some value = get_request_ip meta) then Return value
  else ValidationError "Invalid IP".

End HandshakeValidator.

(** ** [WalletSerializer.get_tokens] *)

Module WalletSerializer.

(** [obj.tokens]: the assets and values of the wallet's tokens. *)
Definition wallet_tokens (db : DB) (w : wallet_pk) : list (asset_pk * Z) :=
  omap (fun '((w', a), v) => if bool_decide (w' = w) then Some (a, v) else None)
       (map_to_list (tokens db)).

Section WithModels.
Context (Mo : Models).

(** [get_tokens]: the tokens of the wallet in the assets the requesting
    place accepts, each serialized by its asset and value. *)
Definition get_tokens (req : option request) (obj : wallet_pk) (db : DB)
  : outcome (list (asset_pk * Z)) :=
  match req with
  | Some r =>
      match request_place r with
      | Some place =>
          Return (filter (fun av => av.1 ∈ place_accepted_assets Mo place)
                         (wallet_tokens db obj))
      | None => ValidationError "Place not found"
      end
  | None => ValidationError "Place not found"
  end.

End WithModels.

End WalletSerializer.

(** ** [CardCreateValidator.validate_generation] *)

Module CardCreateValidator.

(** A row of [Origin]: the place that issued a batch of cards and the
    generation of the batch. *)
Record Origin : Type := MkOrigin {
  origin_place : place_pk;
  origin_generation : Z
}.

#[global] Instance Origin_eq_dec : EqDecision Origin.
Proof. solve_decision. Defined.

(** The state [validate_generation] works on: [self.origin], kept on the
    serializer between calls, and the [Origin] table. *)
Record state : Type := MkState {
  self_origin : option Origin;
  origins : list Origin
}.

(** [Origin.objects.get_or_create(place=place, generation=value)]. *)
Definition get_or_create (place : place_pk) (value : Z) (table : list Origin)
  : Origin * list Origin :=
  let o := MkOrigin place value in
  if bool_decide (o ∈ table) then (o, table) else (o, (table ++ [o])%list).

(** [validate_generation], with [request.place] as [place]. *)
Definition validate_generation (place : option place_pk) (value : Z) (st : state)
  : outcome Z * state :=
  match place with
  | None => (ValidationError "Place not found", st)
  | Some p =>
      let '(o, st1) :=
        match self_origin st with
        | Some o => (o, st)
        | None =>
            let '(o, table) := get_or_create p value (origins st) in
            (o, MkState (Some o) table)
        end in
      if bool_decide (origin_generation o <> value)
      then (ValidationError "One generation per request", st1)
      else (Return value, st1)
  end.

(** The same serializer validating the generation of each card of a
    request in turn: the outcomes, and the state after the last card. *)
Fixpoint validate_generations (place : option place_pk) (values : list Z)
    (st : state) : list (outcome Z) * state :=
  match values with
  | [] => ([], st)
  | v :: rest =>
      let '(o, st1) := validate_generation place v st in
      let '(os, st2) := validate_generations place rest st1 in
      (o :: os, st2)
  end.

End CardCreateValidator.

(** ** Vocabulary of the properties *)

(** The two foreign keys of every card are the same in both states. *)
Definition same_cards (db db' : DB) : Prop :=
  card_user db' = card_user db
  /\ card_wallet_ephemere db' = card_wallet_ephemere db.


(** A computation that only ever adds rows at the end of the transaction
    table, whatever its outcome. *)
Definition appends {A} (m : M A) : Prop :=
  forall db, transactions db `prefix_of` transactions (m db).2.


(** * Properties *)

(** Closes a decidable proposition about concrete data by evaluation. *)
Ltac by_evaluation :=
  match goal with |- ?P => apply (bool_decide_unpack P) end; vm_compute; exact I.

(** ** Sequencing *)

Lemma bind_Return {A B} (m : M A) (k : A -> M B) db a db' :
  m db = (Return a, db') -> bind m k db = k a db'.
Proof. intros H. unfold bind. rewrite H. reflexivity. Qed.

Lemma bind_ValidationError {A B} (m : M A) (k : A -> M B) db msg db' :
  m db = (ValidationError msg, db') -> bind m k db = (ValidationError msg, db').
Proof. intros H. unfold bind. rewrite H. reflexivity. Qed.

Lemma bind_Raise {A B} (m : M A) (k : A -> M B) db e db' :
  m db = (Raise e, db') -> bind m k db = (Raise e, db').
Proof. intros H. unfold bind. rewrite H. reflexivity. Qed.

(** ** Signature verification *)

Section VerifySignatureFacts.

Context {RSAPublicKey bytes : Type}.
Variable encode : string -> bytes.
Variable load_pem_public_key : bytes -> exn + RSAPublicKey.
Variable urlsafe_b64decode : string -> exn + bytes.
Variable pss_sha256_verify : RSAPublicKey -> bytes -> bytes -> exn + unit.

(** A well-formed key and signature give a boolean: [True] when the
    library accepts the signature, [False] on InvalidSignature. *)
Lemma verify_signature_well_formed public_key message signature key sig :
  load_pem_public_key (encode public_key) = inr key ->
  urlsafe_b64decode signature = inr sig ->
  Utils.verify_signature RSAPublicKey bytes encode load_pem_public_key
    urlsafe_b64decode pss_sha256_verify public_key message signature =
    match pss_sha256_verify key sig (encode message) with
    | inr _ => Return true
    | inl InvalidSignature => Return false
    | inl e => Raise e
    end.
Proof.
  intros Hkey Hsig.
  unfold Utils.verify_signature, Utils.verify_signature_try.
  rewrite Hkey, Hsig.
  destruct (pss_sha256_verify key sig (encode message)) as [e | []]; reflexivity.
Qed.

(** C1 (what the code does): the only exception [verify_signature]
    handles is InvalidSignature. When loading the key raises, or when the
    key loads and decoding the signature raises, that exception reaches
    the caller; no boolean is returned. *)
Theorem verify_signature_malformed_input_raises public_key message signature e :
  e <> InvalidSignature ->
  load_pem_public_key (encode public_key) = inl e
  \/ (exists key, load_pem_public_key (encode public_key) = inr key
                  /\ urlsafe_b64decode signature = inl e) ->
  Utils.verify_signature RSAPublicKey bytes encode load_pem_public_key
    urlsafe_b64decode pss_sha256_verify public_key message signature = Raise e.
Proof.
  intros Hne [Hkey | [key [Hkey Hsig]]];
    unfold Utils.verify_signature, Utils.verify_signature_try;
    rewrite Hkey; [| rewrite Hsig]; destruct e; congruence.
Qed.

End VerifySignatureFacts.

(** The malformed key ["not a pem key"]: ValueError escapes. *)
Lemma verify_signature_malformed_input_raises_witness :
  Utils.toy_verify_signature "not a pem key" "payload" "c2ln" = Raise ValueError.
Proof.
  apply (verify_signature_malformed_input_raises
           (fun s => s) Utils.toy_load_pem Utils.toy_b64decode Utils.toy_verify
           "not a pem key" "payload" "c2ln" ValueError).
  - discriminate.
  - left. reflexivity.
Defined.

(** A key that loads, with a signature that does not decode. *)
Example verify_signature_malformed_signature :
  Utils.toy_verify_signature "-----BEGIN PUBLIC KEY-----MIIB" "payload" "abc"
  = Raise BinasciiError.
Proof. reflexivity. Qed.

(** A mismatch is the one failure reported as [False]. *)
Example verify_signature_mismatch :
  Utils.toy_verify_signature "-----BEGIN PUBLIC KEY-----MIIB" "payload" "abcd"
  = Return false.
Proof. reflexivity. Qed.

(** ** The amount pre-check *)

Section AmountFacts.

Context (Mo : Models).
Import TransactionW2W.

Lemma validate_amount_nonpositive value :
  value <= 0 -> validate_amount value = ValidationError "Amount must be positive".
Proof.
  intros H. unfold validate_amount.
  destruct (Z.leb_spec value 0); [reflexivity | lia].
Qed.

Lemma validate_amount_positive value :
  0 < value -> validate_amount value = Return value.
Proof.
  intros H. unfold validate_amount.
  destruct (Z.leb_spec value 0); [lia | reflexivity].
Qed.

(** C2 (amended): the pre-check of a wallet-to-wallet request rejects
    every amount that is zero or negative, whatever the action the
    request would classify as, and lets every positive amount through to
    [validate]; a BADGE transaction of amount zero is what the badge
    validator creates, with the amount fixed at 0 and no pre-check. *)
Theorem amount_precheck (req : request) (db : DB) :
  (forall a, amount a <= 0 ->
     is_valid Mo req a db = (ValidationError "Amount must be positive", db))
  /\ (forall a, 0 < amount a -> is_valid Mo req a db = validate Mo req a db)
  /\ (forall place b, request_place req = Some place ->
        exists t db',
          BadgeValidator.validate Mo req b db = (Return t, db')
          /\ Transaction.amount t = 0
          /\ Transaction.action_ t = Transaction.BADGE
          /\ transactions db' = (transactions db ++ [t])%list).
Proof.
  split; [| split].
  - intros a Ha. unfold is_valid, bind, lift.
    rewrite (validate_amount_nonpositive _ Ha). reflexivity.
  - intros a Ha. unfold is_valid, bind, lift.
    rewrite (validate_amount_positive _ Ha). reflexivity.
  - intros place b Hplace. unfold BadgeValidator.validate. rewrite Hplace.
    eexists _, _. split; [reflexivity |]. auto.
Qed.

End AmountFacts.

(** C2 (as stated, refuted): place 1 sends its badge asset with amount 0.
    The request classifies as BADGE, and the pre-check rejects it. *)
Lemma badge_zero_amount_rejected :
  let a := Demo.w2w Demo.WP Demo.WU Demo.BDG 0 None in
  TransactionW2W.get_action Demo.honest Demo.db0 Demo.P (TransactionW2W.self_of a) a
  = Return Transaction.BADGE
  /\ TransactionW2W.is_valid Demo.honest Demo.req a Demo.db0
     = (ValidationError "Amount must be positive", Demo.db0).
Proof. split; reflexivity. Qed.

(** ** Classification *)

Section ClassificationFacts.

Context (Mo : Models).
Import TransactionW2W.

(** C3 (amended): when the sender is the place's wallet, outside the
    gateway refill, a SUBSCRIPTION asset classifies as SUBSCRIBE, a BADGE
    asset as BADGE; for any other asset a self-transfer is rejected,
    wherever the asset comes from, with one message when the asset
    originates from the place's wallet and a different one when it does
    not; and a transfer to another wallet is a REFILL exactly when a
    primary card and a user card are both present, and rejected
    otherwise. *)
Theorem place_sender_classification (db : DB) (place : place_pk)
    (s : self) (a : attrs) :
  is_stripe_refill Mo s a = false ->
  place_wallet Mo place = self_sender s ->
  let cat := asset_category Mo (self_asset s) in
  let r := get_action Mo db place s a in
  (cat = Asset.SUBSCRIPTION -> r = Return Transaction.SUBSCRIBE)
  /\ (cat = Asset.BADGE -> r = Return Transaction.BADGE)
  /\ (cat <> Asset.SUBSCRIPTION -> cat <> Asset.BADGE ->
      self_sender s = self_receiver s ->
      is_rejected r = true
      /\ (asset_wallet_origin Mo (self_asset s) = place_wallet Mo place ->
          r = ValidationError
                "no longuer implemented for REFILL. Send user wallet instead")
      /\ (asset_wallet_origin Mo (self_asset s) <> place_wallet Mo place ->
          r = ValidationError "Unauthorized wallet_origin")
      /\ "no longuer implemented for REFILL. Send user wallet instead"
         <> "Unauthorized wallet_origin")
  /\ (cat <> Asset.SUBSCRIPTION -> cat <> Asset.BADGE ->
      self_sender s <> self_receiver s ->
      (is_Some (self_primary_card s) /\ is_Some (self_user_card s) ->
         r = Return Transaction.REFILL)
      /\ (~ (is_Some (self_primary_card s) /\ is_Some (self_user_card s)) ->
         r = ValidationError
               "Primary card and user card are required for refill transaction")).
Proof.
  intros Hstripe Hsender cat r. subst cat r. unfold get_action.
  rewrite Hstripe, (bool_decide_eq_true_2 _ Hsender).
  split; [| split; [| split]].
  - intros ->. reflexivity.
  - intros Hcat. rewrite Hcat. reflexivity.
  - intros Hs Hb Heq.
    rewrite (bool_decide_eq_false_2 _ Hs), (bool_decide_eq_false_2 _ Hb),
      (bool_decide_eq_true_2 _ Heq).
    split; [case_bool_decide; reflexivity |].
    split; [intros Horigin; rewrite (bool_decide_eq_true_2 _ Horigin);
            reflexivity |].
    split; [intros Horigin; rewrite (bool_decide_eq_false_2 _ Horigin);
            reflexivity |].
    discriminate.
  - intros Hs Hb Hne.
    rewrite (bool_decide_eq_false_2 _ Hs), (bool_decide_eq_false_2 _ Hb),
      (bool_decide_eq_false_2 _ Hne).
    split.
    + intros [[pc ->] [uc ->]]. reflexivity.
    + intros Hcards.
      destruct (self_primary_card s) as [pc |], (self_user_card s) as [uc |];
        try reflexivity.
      exfalso. apply Hcards. split; eexists; reflexivity.
Qed.

(** One branch of the sale checks: split the statement, name the cards,
    and close each part by the equations and memberships at hand. *)
Ltac sale_branch :=
  simpl;
  repeat match goal with
    | |- _ /\ _ => split
    | |- _ <-> _ => split
    | |- forall _, _ => intro
    | H : ex _ |- _ => destruct H
    | H : _ /\ _ |- _ => destruct H
    | H : Some _ = Some _ |- _ => injection H as H; subst
    | H : ?x ∈ ?l, H' : ?x ∉ ?l |- _ => destruct (H' H)
    end;
  try congruence; try reflexivity; eauto 10.

(** C4 (amended): when the receiver is the place's wallet and the sender
    is not, outside the gateway refill, the request is a SALE exactly
    when the four conditions hold; each condition that fails, taken in
    the order of the checks, is rejected with an error of its own. *)
Theorem place_receiver_classification (db : DB) (place : place_pk)
    (s : self) (a : attrs) :
  is_stripe_refill Mo s a = false ->
  place_wallet Mo place = self_receiver s ->
  place_wallet Mo place <> self_sender s ->
  let r := get_action Mo db place s a in
  (r = Return Transaction.SALE <-> sale_conditions Mo place s)
  /\ (~ sale_conditions Mo place s -> is_rejected r = true)
  /\ (self_primary_card s = None ->
      r = ValidationError "Primary card is required for sale transaction")
  /\ (forall pc, self_primary_card s = Some pc ->
      pc ∉ place_primary_cards Mo place ->
      r = ValidationError "Primary card must be in place primary cards")
  /\ (forall pc, self_primary_card s = Some pc ->
      pc ∈ place_primary_cards Mo place ->
      self_user_card s = None ->
      r = ValidationError "User card is required for sale transaction")
  /\ (forall pc uc, self_primary_card s = Some pc ->
      pc ∈ place_primary_cards Mo place ->
      self_user_card s = Some uc ->
      self_receiver s ∉ card_get_authority_delegation Mo uc ->
      r = ValidationError "Unauthorized")
  /\ (forall pc uc, self_primary_card s = Some pc ->
      pc ∈ place_primary_cards Mo place ->
      self_user_card s = Some uc ->
      self_receiver s ∈ card_get_authority_delegation Mo uc ->
      self_asset s ∉ place_accepted_assets Mo place ->
      r = ValidationError "Asset not accepted").
Proof.
  intros Hstripe Hreceiver Hsender r. subst r. unfold get_action, sale_conditions.
  rewrite Hstripe, (bool_decide_eq_false_2 _ Hsender),
    (bool_decide_eq_true_2 _ Hreceiver).
  unfold mem.
  destruct (self_primary_card s) as [pc |]; [| sale_branch].
  destruct (decide (pc ∈ place_primary_cards Mo place)) as [Hpc | Hpc];
    [rewrite (bool_decide_eq_true_2 _ Hpc)
    | rewrite (bool_decide_eq_false_2 _ Hpc); sale_branch].
  destruct (self_user_card s) as [uc |]; [| sale_branch].
  destruct (decide (self_receiver s ∈ card_get_authority_delegation Mo uc))
    as [Hd | Hd];
    [rewrite (bool_decide_eq_true_2 _ Hd)
    | rewrite (bool_decide_eq_false_2 _ Hd); sale_branch].
  destruct (decide (self_asset s ∈ place_accepted_assets Mo place)) as [Ha | Ha];
    [rewrite (bool_decide_eq_true_2 _ Ha)
    | rewrite (bool_decide_eq_false_2 _ Ha); sale_branch].
  sale_branch.
Qed.

End ClassificationFacts.

(** A refill at the point of sale: place 1 sends 10 of its local asset to
    the wallet of user 1, both cards presented. *)
Lemma place_sender_classification_witness :
  let a := Demo.w2w Demo.WP Demo.WU Demo.LOCAL 10 None in
  TransactionW2W.get_action Demo.honest Demo.db0 Demo.P (TransactionW2W.self_of a) a
  = Return Transaction.REFILL.
Proof.
  intros a.
  pose proof (place_sender_classification Demo.honest Demo.db0 Demo.P
                (TransactionW2W.self_of a) a eq_refl eq_refl) as (_ & _ & _ & H).
  apply H; [by vm_compute .. | split; eexists; reflexivity].
Defined.

(** C3 (as stated, refuted): place 1 names its own wallet as sender and
    receiver, for the federated asset 1002 that place 2 created, with both
    cards presented. The asset does not originate from the place's wallet,
    so the claim classifies the request as REFILL; the code rejects it. *)
Lemma self_transfer_foreign_asset_rejected :
  let a := Demo.w2w Demo.WP Demo.WP Demo.FED 10 None in
  let s := TransactionW2W.self_of a in
  TransactionW2W.is_stripe_refill Demo.honest s a = false
  /\ place_wallet Demo.honest Demo.P = TransactionW2W.self_sender s
  /\ asset_category Demo.honest (TransactionW2W.self_asset s) = Asset.TOKEN_LOCAL_FIAT
  /\ asset_wallet_origin Demo.honest (TransactionW2W.self_asset s)
     <> place_wallet Demo.honest Demo.P
  /\ TransactionW2W.self_primary_card s = Some Demo.C1
  /\ TransactionW2W.self_user_card s = Some Demo.C2
  /\ TransactionW2W.get_action Demo.honest Demo.db0 Demo.P s a
     = ValidationError "Unauthorized wallet_origin".
Proof. repeat split. discriminate. Qed.

(** A sale: user 1 pays 4 of the local asset to place 1. *)
Lemma place_receiver_classification_witness :
  let a := Demo.w2w Demo.WU Demo.WP Demo.LOCAL 4 None in
  TransactionW2W.get_action Demo.honest Demo.db0 Demo.P (TransactionW2W.self_of a) a
  = Return Transaction.SALE.
Proof.
  intros a.
  pose proof (place_receiver_classification Demo.honest Demo.db0 Demo.P
                (TransactionW2W.self_of a) a eq_refl eq_refl) as H.
  apply H; [by vm_compute |].
  exists Demo.C1, Demo.C2. repeat split; by_evaluation.
Defined.

(** C4 (as stated, refuted): the receiver is the place's wallet, the
    sender is not, and the four conditions of a sale hold; the request is
    the gateway's refill and classifies as REFILL, not SALE. *)
Lemma gateway_refill_to_place_is_not_a_sale :
  let a := Demo.gateway_refill in
  let s := TransactionW2W.self_of a in
  place_wallet Demo.honest Demo.P = TransactionW2W.self_receiver s
  /\ place_wallet Demo.honest Demo.P <> TransactionW2W.self_sender s
  /\ TransactionW2W.sale_conditions Demo.honest Demo.P s
  /\ TransactionW2W.get_action Demo.honest Demo.db0 Demo.P s a
     = Return Transaction.REFILL.
Proof.
  repeat split; try discriminate.
  exists Demo.C1, Demo.C2. repeat split; by_evaluation.
Qed.

(** ** Validation of a wallet-to-wallet transaction *)

Section ValidateFacts.

Context (Mo : Models).
Import TransactionW2W.

(** A request that [get_action] classifies always passes the test
    "sender or receiver are a place". *)
Lemma classified_place_is_party db place s a act :
  get_action Mo db place s a = Return act ->
  place_is_party Mo place s act = true.
Proof.
  unfold get_action, place_is_party. intros H.
  destruct (is_stripe_refill Mo s a) eqn:Hstripe.
  { unfold is_stripe_refill in Hstripe.
    apply andb_prop in Hstripe as [_ ->].
    rewrite !andb_false_r. reflexivity. }
  case_bool_decide; [reflexivity |].
  case_bool_decide; [rewrite andb_false_r; reflexivity |].
  case_bool_decide; [| discriminate].
  assert (act = Transaction.FUSION) as ->.
  { destruct (wallet_user Mo db (sender a)),
      (wallet_card_ephemere Mo db (sender a)),
      (wallet_user Mo db (receiver a)); try discriminate.
    case_bool_decide; congruence. }
  rewrite bool_decide_eq_true_2 by reflexivity.
  rewrite !andb_false_r. reflexivity.
Qed.

Lemma validate_classified req a db place act :
  resolve_place Mo req (self_of a) a = Return place ->
  get_action Mo db place (self_of a) a = Return act ->
  validate Mo req a db = after_classification Mo req (self_of a) act db.
Proof.
  intros Hplace Hact. unfold validate, after_classification, bind at 1, lift.
  rewrite Hplace. unfold bind at 1. rewrite Hact.
  rewrite (classified_place_is_party _ _ _ _ _ Hact). reflexivity.
Qed.

Lemma validate_unclassified req a db place msg :
  resolve_place Mo req (self_of a) a = Return place ->
  get_action Mo db place (self_of a) a = ValidationError msg ->
  validate Mo req a db = (ValidationError msg, db).
Proof.
  intros Hplace Hact. unfold validate, bind at 1, lift.
  rewrite Hplace. unfold bind at 1. rewrite Hact. reflexivity.
Qed.

(** The test "Check if sender or receiver are a place" of [validate]
    fails exactly when the place's wallet is neither the sender nor the
    receiver, the asset is not the externally-backed one and the action is
    not FUSION. *)
Lemma place_is_party_false place s act :
  place_is_party Mo place s act = false
  <-> (place_wallet Mo place <> self_sender s
       /\ place_wallet Mo place <> self_receiver s
       /\ asset_is_stripe_primary Mo (self_asset s) = false
       /\ act <> Transaction.FUSION).
Proof.
  unfold place_is_party.
  rewrite negb_false_iff, !andb_true_iff, !negb_true_iff, !bool_decide_eq_false.
  tauto.
Qed.

(** C5: a request of which neither the sender nor the receiver is the
    place's wallet, for an asset that is not the externally-backed one,
    and that does not classify as FUSION, is rejected by [validate], which
    leaves the database as it was; the test that [validate] makes on the
    classified action fails on exactly these four conditions. *)
Theorem unrelated_place_rejected req a db place :
  resolve_place Mo req (self_of a) a = Return place ->
  place_wallet Mo place <> sender a ->
  place_wallet Mo place <> receiver a ->
  asset_is_stripe_primary Mo (asset a) = false ->
  get_action Mo db place (self_of a) a <> Return Transaction.FUSION ->
  validate Mo req a db = (ValidationError "No action authorized", db)
  /\ forall act,
       place_is_party Mo place (self_of a) act = false
       <-> (place_wallet Mo place <> sender a
            /\ place_wallet Mo place <> receiver a
            /\ asset_is_stripe_primary Mo (asset a) = false
            /\ act <> Transaction.FUSION).
Proof.
  intros Hplace Hs Hr Hasset Hfusion. split.
  - apply (validate_unclassified _ _ _ place); [assumption |].
    revert Hfusion. unfold get_action, is_stripe_refill. simpl.
    rewrite Hasset, andb_false_r.
    rewrite (bool_decide_eq_false_2 _ Hs), (bool_decide_eq_false_2 _ Hr).
    case_bool_decide; [| reflexivity].
    destruct (wallet_user Mo db (sender a)),
      (wallet_card_ephemere Mo db (sender a)),
      (wallet_user Mo db (receiver a)); try reflexivity.
    case_bool_decide; [congruence | reflexivity].
  - intros act. apply (place_is_party_false place (self_of a) act).
Qed.

Lemma check_sender_token_passes s act db value :
  tokens db !! (self_sender s, self_asset s) = Some value ->
  act ∉ [Transaction.SALE; Transaction.TRANSFER] ->
  check_sender_token s act db = (Return tt, db).
Proof.
  intros H Hact. unfold check_sender_token. rewrite H.
  rewrite (bool_decide_eq_false_2 _ Hact), andb_false_r. reflexivity.
Qed.

Lemma get_or_create_receiver_token_returns s db :
  exists db1,
    get_or_create_receiver_token s db = (Return tt, db1)
    /\ transactions db1 = transactions db
    /\ card_user db1 = card_user db
    /\ card_wallet_ephemere db1 = card_wallet_ephemere db.
Proof.
  unfold get_or_create_receiver_token.
  destruct (tokens db !! (self_receiver s, self_asset s));
    eexists; repeat split.
Qed.

Lemma Transaction_objects_create_returns d db :
  Transaction_objects_create Mo d db = (Return d, created Mo d db).
Proof. reflexivity. Qed.

(** The sender's token is looked up and never created; the receiver's
    is created, with value 0, when it is missing. *)
Lemma check_sender_token_missing s act db :
  tokens db !! (self_sender s, self_asset s) = None ->
  check_sender_token s act db = (ValidationError "Sender token does not exist", db).
Proof. intros H. unfold check_sender_token. rewrite H. reflexivity. Qed.

Lemma check_sender_token_short s act db value :
  tokens db !! (self_sender s, self_asset s) = Some value ->
  value < self_amount s ->
  act ∈ [Transaction.SALE; Transaction.TRANSFER] ->
  check_sender_token s act db
  = (ValidationError "Not enough token on sender wallet", db).
Proof.
  intros H Hlt Hact. unfold check_sender_token. rewrite H.
  rewrite (proj2 (Z.ltb_lt _ _) Hlt), (bool_decide_eq_true_2 _ Hact).
  reflexivity.
Qed.

Lemma check_sender_token_returns s act db db' :
  check_sender_token s act db = (Return tt, db') ->
  db' = db
  /\ exists value,
       tokens db !! (self_sender s, self_asset s) = Some value
       /\ (act ∈ [Transaction.SALE; Transaction.TRANSFER] -> self_amount s <= value).
Proof.
  unfold check_sender_token.
  destruct (tokens db !! (self_sender s, self_asset s)) as [value |];
    [| discriminate].
  destruct (Z.ltb_spec value (self_amount s)) as [Hlt | Hge]; simpl.
  - case_bool_decide as Hact; [discriminate |].
    intros [= <-]. split; [reflexivity |]. exists value. split; [reflexivity |].
    intros Hin. contradiction.
  - intros [= <-]. split; [reflexivity |]. exists value. auto.
Qed.


(** C7: for a request classified SALE or TRANSFER, [validate] fails with
    "Sender token does not exist" when the sender has no token for the
    asset, with "Not enough token on sender wallet" when the token holds
    less than the amount, and succeeds only when the token exists with a
    value of at least the amount; the two errors are different. The
    token check itself treats SALE and TRANSFER alike. *)
Theorem sender_balance_check req a db place act :
  resolve_place Mo req (self_of a) a = Return place ->
  get_action Mo db place (self_of a) a = Return act ->
  act ∈ [Transaction.SALE; Transaction.TRANSFER] ->
  (tokens db !! (sender a, asset a) = None ->
     validate Mo req a db = (ValidationError "Sender token does not exist", db))
  /\ (forall value, tokens db !! (sender a, asset a) = Some value ->
        value < amount a ->
        validate Mo req a db
        = (ValidationError "Not enough token on sender wallet", db))
  /\ (forall t db', validate Mo req a db = (Return t, db') ->
        exists value, tokens db !! (sender a, asset a) = Some value
                      /\ amount a <= value)
  /\ "Sender token does not exist" <> "Not enough token on sender wallet"
  /\ (forall act' db1, act' ∈ [Transaction.SALE; Transaction.TRANSFER] ->
        check_sender_token (self_of a) act' db1
        = match tokens db1 !! (sender a, asset a) with
          | None => (ValidationError "Sender token does not exist", db1)
          | Some value =>
              if value <? amount a
              then (ValidationError "Not enough token on sender wallet", db1)
              else (Return tt, db1)
          end).
Proof.
  intros Hplace Hact Hin.
  rewrite (validate_classified _ _ _ _ _ Hplace Hact).
  unfold after_classification.
  split; [| split; [| split; [| split]]].
  - intros Hnone. unfold bind at 1.
    rewrite check_sender_token_missing by exact Hnone. reflexivity.
  - intros value Hv Hlt. unfold bind at 1.
    rewrite (check_sender_token_short _ _ _ value) by assumption. reflexivity.
  - intros t db'. unfold bind at 1.
    destruct (check_sender_token (self_of a) act db) as [[[] | msg | e] db1] eqn:Hc;
      try discriminate.
    intros _. apply check_sender_token_returns in Hc as (_ & value & Hv & Hge).
    exists value. split; [exact Hv | exact (Hge Hin)].
  - discriminate.
  - intros act' db1 Hin'. unfold check_sender_token. simpl.
    rewrite (bool_decide_eq_true_2 _ Hin').
    destruct (tokens db1 !! (sender a, asset a)); [| reflexivity].
    rewrite andb_true_r. reflexivity.
Qed.

(** C6 (amended): for a request classified REFILL whose sender holds a
    token of the asset, [validate] first creates the CREATION transaction,
    from the sender's wallet to itself and of the requested amount, and checks
    its hash; on a mismatch it fails there, before any REFILL transaction
    exists. Then it creates the REFILL transaction and checks its hash:
    a mismatch is an error, a match returns the transaction. *)
Theorem refill_mints_first req a db place value :
  resolve_place Mo req (self_of a) a = Return place ->
  get_action Mo db place (self_of a) a = Return Transaction.REFILL ->
  tokens db !! (sender a, asset a) = Some value ->
  let crea := crea_transac_dict req (self_of a) in
  let refill := transaction_dict req (self_of a) Transaction.REFILL in
  Transaction.action_ crea = Transaction.CREATION
  /\ Transaction.sender crea = sender a
  /\ Transaction.receiver crea = sender a
  /\ Transaction.asset crea = asset a
  /\ Transaction.amount crea = amount a
  /\ Transaction.action_ refill = Transaction.REFILL
  /\ exists db1 db2,
       transactions db1 = (transactions db ++ [crea])%list
       /\ transactions db2 = (transactions db ++ [crea; refill])%list
       /\ validate Mo req a db
          = if verify_hash Mo db1 crea then
              if verify_hash Mo db2 refill then (Return refill, db2)
              else (ValidationError "Transaction hash is not valid", db2)
            else (ValidationError "Transaction hash is not valid", db1).
Proof.
  intros Hplace Hact Hv crea refill.
  do 6 (split; [reflexivity |]).
  rewrite (validate_classified _ _ _ _ _ Hplace Hact).
  unfold after_classification.
  rewrite (bind_Return _ _ db tt db)
    by (apply check_sender_token_passes with value; [exact Hv | by_evaluation]).
  destruct (get_or_create_receiver_token_returns (self_of a) db)
    as (db0 & Hrecv & Htx & _).
  rewrite (bind_Return _ _ _ _ _ Hrecv).
  unfold mint_if_refill. rewrite bool_decide_eq_true_2 by reflexivity.
  fold crea refill.
  exists (created Mo crea db0), (created Mo refill (created Mo crea db0)).
  split; [simpl; rewrite Htx; reflexivity |].
  split; [simpl; rewrite Htx, <- app_assoc; reflexivity |].
  assert (bind (Transaction_objects_create Mo crea) (fun t => check_hash Mo t) db0
          = check_hash Mo crea (created Mo crea db0)) as Hmint by reflexivity.
  unfold check_hash in Hmint at 2.
  destruct (verify_hash Mo (created Mo crea db0) crea).
  - rewrite (bind_Return _ _ _ _ _ Hmint).
    rewrite (bind_Return _ _ _ _ _ (Transaction_objects_create_returns refill _)).
    unfold bind, check_hash, ret.
    destruct (verify_hash Mo (created Mo refill (created Mo crea db0)) refill);
      reflexivity.
  - rewrite (bind_ValidationError _ _ _ _ _ Hmint). reflexivity.
Qed.

End ValidateFacts.

(** A transfer between user 1 and user 2 submitted by place 1, which is
    party to neither wallet. *)
Lemma unrelated_place_rejected_witness :
  TransactionW2W.validate Demo.honest Demo.req
    (Demo.w2w Demo.WU Demo.WU2 Demo.LOCAL 1 None) Demo.db0
  = (ValidationError "No action authorized", Demo.db0).
Proof.
  refine (proj1 (unrelated_place_rejected Demo.honest Demo.req
                   (Demo.w2w Demo.WU Demo.WU2 Demo.LOCAL 1 None) Demo.db0 Demo.P
                   eq_refl _ _ eq_refl _)).
  - by_evaluation.
  - by_evaluation.
  - vm_compute. discriminate.
Defined.


(** User 1 holds 6 of the local asset and pays 100. *)
Lemma sender_balance_check_witness :
  TransactionW2W.validate Demo.honest Demo.req
    (Demo.w2w Demo.WU Demo.WP Demo.LOCAL 100 None) Demo.db0
  = (ValidationError "Not enough token on sender wallet", Demo.db0).
Proof.
  refine (proj1 (proj2 (sender_balance_check Demo.honest Demo.req
                          (Demo.w2w Demo.WU Demo.WP Demo.LOCAL 100 None)
                          Demo.db0 Demo.P Transaction.SALE eq_refl eq_refl _))
            6 _ _).
  - by_evaluation.
  - vm_compute. reflexivity.
  - reflexivity.
Defined.

(** The refill of 10 of the local asset from place 1 to user 1: the
    transaction table receives the CREATION, then the REFILL. *)
Lemma refill_mints_first_witness :
  let a := Demo.w2w Demo.WP Demo.WU Demo.LOCAL 10 None in
  let s := TransactionW2W.self_of a in
  exists db2,
    TransactionW2W.validate Demo.honest Demo.req a Demo.db0
    = (Return (TransactionW2W.transaction_dict Demo.req s Transaction.REFILL), db2)
    /\ transactions db2
       = [TransactionW2W.crea_transac_dict Demo.req s;
          TransactionW2W.transaction_dict Demo.req s Transaction.REFILL].
Proof.
  intros a s.
  destruct (refill_mints_first Demo.honest Demo.req a Demo.db0 Demo.P 100
              eq_refl eq_refl)
    as (_ & _ & _ & _ & _ & _ & db1 & db2 & _ & Htx & Hv).
  - vm_compute. reflexivity.
  - exists db2. split; [exact Hv | exact Htx].
Defined.

(** C6 (as stated, refuted): place 1 refills the wallet of user 1 with
    the federated asset 1002, of which its own wallet holds no token. The
    request classifies as REFILL, yet [validate] refuses it on the sender's
    token, before the minting step: no CREATION transaction is created. *)
Lemma refill_without_sender_token_mints_nothing :
  let a := Demo.w2w Demo.WP Demo.WU Demo.FED 10 None in
  let r := TransactionW2W.validate Demo.honest Demo.req a Demo.db0 in
  TransactionW2W.get_action Demo.honest Demo.db0 Demo.P (TransactionW2W.self_of a) a
  = Return Transaction.REFILL
  /\ tokens Demo.db0 !! (Demo.WP, Demo.FED) = None
  /\ r.1 = ValidationError "Sender token does not exist"
  /\ transactions r.2 = transactions Demo.db0
  /\ transactions r.2 = [].
Proof. repeat split. Qed.

(** With a CREATION row whose hash does not verify, the refill stops
    after the CREATION: no REFILL row is written. *)
Example refill_creation_hash_mismatch :
  let Mo := Demo.models (fun t => negb (bool_decide
                                         (Transaction.action_ t = Transaction.CREATION))) in
  let a := Demo.w2w Demo.WP Demo.WU Demo.LOCAL 10 None in
  let r := TransactionW2W.validate Mo Demo.req a Demo.db0 in
  r.1 = ValidationError "Transaction hash is not valid"
  /\ transactions r.2 = [TransactionW2W.crea_transac_dict Demo.req (TransactionW2W.self_of a)].
Proof. split; reflexivity. Qed.

(** ** What the validators leave untouched *)

Lemma same_cards_refl db : same_cards db db.
Proof. split; reflexivity. Qed.





Section KeepsCards.

Context (Mo : Models).







Lemma get_wallet_same_cards db db' c :
  same_cards db db' -> get_wallet Mo db' c = get_wallet Mo db c.
Proof. intros [Hu Hw]. unfold get_wallet. rewrite Hu, Hw. reflexivity. Qed.

End KeepsCards.

(** ** Tokens with a positive balance *)

Lemma NoDup_omap_inj {A B} (f : A -> option B) (l : list A) :
  (forall x y z, x ∈ l -> y ∈ l -> f x = Some z -> f y = Some z -> x = y) ->
  NoDup l -> NoDup (omap f l).
Proof.
  intros Hinj Hl. induction Hl as [| x l Hx Hl IH]; simpl.
  - constructor.
  - assert (NoDup (omap f l)) as IH'.
    { apply IH. intros y1 y2 z H1 H2. apply Hinj; by right. }
    destruct (f x) as [z |] eqn:Hfx; [| exact IH'].
    constructor; [| exact IH'].
    rewrite list_elem_of_omap. intros (y & Hy & Hfy).
    assert (x = y) as -> by (eapply Hinj; [by left | by right | eassumption ..]).
    contradiction.
Qed.

Lemma elem_of_positive_tokens db w asset value :
  (asset, value) ∈ positive_tokens db w
  <-> tokens db !! (w, asset) = Some value /\ 0 < value.
Proof.
  unfold positive_tokens. rewrite list_elem_of_omap. split.
  - intros ([[w' a] v] & Hin & Hf).
    apply elem_of_map_to_list in Hin.
    case_bool_decide as Hw; simpl in Hf; [| discriminate].
    destruct (Z.ltb_spec 0 v); [| discriminate].
    injection Hf as <- <-. subst w'. auto.
  - intros [Hlookup Hpos].
    exists ((w, asset), value). split; [by apply elem_of_map_to_list |].
    rewrite bool_decide_eq_true_2 by reflexivity. simpl.
    destruct (Z.ltb_spec 0 value); [reflexivity | lia].
Qed.

Lemma NoDup_positive_tokens db w : NoDup (positive_tokens db w).
Proof.
  unfold positive_tokens. apply NoDup_omap_inj; [| apply NoDup_map_to_list].
  intros [[w1 a1] v1] [[w2 a2] v2] [a v] _ _ H1 H2.
  case_bool_decide; simpl in H1; [| discriminate].
  case_bool_decide; simpl in H2; [| discriminate].
  destruct (0 <? v1); [| discriminate]. destruct (0 <? v2); [| discriminate].
  simpl in H1, H2. congruence.
Qed.


(** ** The refund and void sweep *)

Section RefundFacts.

Context (Mo : Models).
Import CardRefundOrVoidValidator.

Lemma elem_of_swept_tokens db place w asset value :
  (asset, value) ∈ swept_tokens Mo db place w
  <-> tokens db !! (w, asset) = Some value
      /\ 0 < value
      /\ asset_wallet_origin Mo asset = place_wallet Mo place
      /\ asset_category Mo asset
         ∈ [Asset.TOKEN_LOCAL_FIAT; Asset.TOKEN_LOCAL_NOT_FIAT].
Proof.
  unfold swept_tokens. rewrite list_elem_of_filter, elem_of_positive_tokens.
  unfold refundable. simpl.
  rewrite andb_True, !bool_decide_spec. tauto.
Qed.

Lemma transaction_dict_same_cards req place pc uc db db' av :
  same_cards db db' ->
  transaction_dict Mo req place pc uc db' av
  = transaction_dict Mo req place pc uc db av.
Proof.
  intros H. unfold transaction_dict.
  rewrite (get_wallet_same_cards Mo _ _ uc H). reflexivity.
Qed.

(** The loop: one REFUND row per swept token, in order; no card is
    written. *)
Lemma for_each_refund_token req place pc uc swept db0 db :
  same_cards db0 db ->
  exists db',
    for_each swept (refund_token Mo req place pc uc) db = (Return tt, db')
    /\ transactions db'
       = (transactions db ++ (transaction_dict Mo req place pc uc db0 <$> swept))%list
    /\ same_cards db0 db'.
Proof.
  revert db. induction swept as [| av swept IH]; intros db Hsame; simpl.
  - exists db. rewrite app_nil_r. auto.
  - unfold refund_token at 1.
    destruct (IH (TransactionW2W.created Mo
                    (transaction_dict Mo req place pc uc db av) db))
      as (db' & Hrun & Htx & Hsame').
    { destruct Hsame. split; assumption. }
    exists db'. split; [exact Hrun |]. split; [| exact Hsame'].
    rewrite Htx. simpl. rewrite <- app_assoc. simpl.
    rewrite (transaction_dict_same_cards _ _ _ _ _ _ _ Hsame). reflexivity.
Qed.

(** C8 (amended): with a primary card of the place and a user card,
    [validate] creates one REFUND transaction for each token of the
    card's wallet that holds a positive value in a local-fiat or
    local-non-fiat asset created by the place's wallet, moving the whole
    value from the card's wallet to the place's wallet; a VOID then
    clears the card's user and ephemeral wallet, and any other action
    leaves every card as it was. *)
Theorem refund_sweep req a db place pc uc :
  request_place req = Some place ->
  or_else (primary_card_uuid a) (primary_card_fisrtTagId a) = Some pc ->
  pc ∈ place_primary_cards Mo place ->
  or_else (user_card_uuid a) (user_card_firstTagId a) = Some uc ->
  let w := get_wallet Mo db uc in
  let swept := swept_tokens Mo db place w in
  let refund := transaction_dict Mo req place (Some pc) uc db in
  (forall asset value,
     (asset, value) ∈ swept
     <-> tokens db !! (w, asset) = Some value
         /\ 0 < value
         /\ asset_wallet_origin Mo asset = place_wallet Mo place
         /\ asset_category Mo asset
            ∈ [Asset.TOKEN_LOCAL_FIAT; Asset.TOKEN_LOCAL_NOT_FIAT])
  /\ NoDup swept
  /\ (forall av, Transaction.sender (refund av) = w
                 /\ Transaction.receiver (refund av) = place_wallet Mo place
                 /\ Transaction.asset (refund av) = av.1
                 /\ Transaction.amount (refund av) = av.2
                 /\ Transaction.action_ (refund av) = Transaction.REFUND)
  /\ exists db',
       validate Mo req a db = (Return tt, db')
       /\ transactions db' = (transactions db ++ (refund <$> swept))%list
       /\ (action a = Some Transaction.VOID ->
           card_user db' !! uc = None /\ card_wallet_ephemere db' !! uc = None)
       /\ (action a <> Some Transaction.VOID -> same_cards db db').
Proof.
  intros Hplace Hpc Hin Huc w swept refund.
  split; [intros; apply elem_of_swept_tokens |].
  split; [apply NoDup_filter, NoDup_positive_tokens |].
  split; [intros av; repeat split |].
  unfold validate. rewrite Hplace, Hpc, Huc.
  unfold mem. rewrite (bool_decide_eq_true_2 _ Hin).
  destruct (for_each_refund_token req place (Some pc) uc swept db db
              (same_cards_refl db)) as (db1 & Hrun & Htx & Hsame).
  rewrite (bind_Return _ _ db tt db) by reflexivity.
  rewrite (bind_Return _ _ db swept db) by reflexivity.
  rewrite (bind_Return _ _ _ _ _ Hrun).
  case_bool_decide as Hvoid.
  - exists (set_card uc None None db1). split; [reflexivity |].
    split; [exact Htx |]. split; [| congruence].
    intros _. simpl. split; apply lookup_delete_eq.
  - exists db1. split; [reflexivity |]. split; [exact Htx |].
    split; [congruence | intros _; exact Hsame].
Qed.

End RefundFacts.

(** The void of the card of user 1 at place 1: the 6 units of the local
    asset go back to the place, and the card loses its user. *)
Lemma refund_sweep_witness :
  let r := CardRefundOrVoidValidator.validate Demo.honest Demo.req
             (Demo.refund_card Transaction.VOID) Demo.db0 in
  r.1 = Return tt
  /\ card_user r.2 !! Demo.C2 = None
  /\ card_wallet_ephemere r.2 !! Demo.C2 = None.
Proof.
  destruct (refund_sweep Demo.honest Demo.req (Demo.refund_card Transaction.VOID)
              Demo.db0 Demo.P Demo.C1 Demo.C2 eq_refl eq_refl)
    as (_ & _ & _ & db' & Hrun & _ & Hvoid & _).
  - by_evaluation.
  - reflexivity.
  - simpl. rewrite Hrun. simpl. split; [reflexivity |]. apply Hvoid. reflexivity.
Defined.

(** C8 (as stated, refuted): place 1 accepts the federated asset 1002 and
    its own subscription asset 1004, and user 1 holds 5 of the first and 1
    of the second; yet the refund of the user's card creates a single
    transaction, for the local asset, and both balances stay in the user's
    wallet. *)
Lemma refund_skips_accepted_assets :
  let r := CardRefundOrVoidValidator.validate Demo.honest Demo.req
             (Demo.refund_card Transaction.REFUND) Demo.db0 in
  Demo.FED ∈ place_accepted_assets Demo.honest Demo.P
  /\ Demo.SUB ∈ place_accepted_assets Demo.honest Demo.P
  /\ tokens Demo.db0 !! (Demo.WU, Demo.FED) = Some 5
  /\ tokens Demo.db0 !! (Demo.WU, Demo.SUB) = Some 1
  /\ r.1 = Return tt
  /\ Transaction.asset <$> transactions r.2 = [Demo.LOCAL]
  /\ tokens r.2 !! (Demo.WU, Demo.FED) = Some 5
  /\ tokens r.2 !! (Demo.WU, Demo.SUB) = Some 1.
Proof.
  split; [by_evaluation |]. split; [by_evaluation |].
  repeat split; vm_compute; reflexivity.
Qed.

(** ** Wallet fusion *)

Section FusionFacts.

Context (Mo : Models).
Import WalletCreateSerializer.




End FusionFacts.



(** The same claim when the hash of the FUSION row does not verify: the
    transfer is recorded, the validator raises, and the card keeps its
    ephemeral wallet. *)
Example fusion_fails_card_unchanged :
  let Mo := Demo.models (fun _ => false) in
  let r := WalletCreateSerializer.validate Mo (Some Demo.req)
             Demo.claim_card Demo.db0 in
  r.1 = ValidationError "Transaction hash is not valid"
  /\ card_wallet_ephemere r.2 !! Demo.C3 = Some Demo.WE
  /\ card_user r.2 !! Demo.C3 = None.
Proof. repeat split; vm_compute; reflexivity. Qed.

(** * Further properties of the code *)

(** ** The address of a request *)

Lemma append_nil_l (s : string) : "" ++ s = s.
Proof. reflexivity. Qed.

Lemma append_cons (c : ascii) (s t : string) : String c s ++ t = String c (s ++ t).
Proof. reflexivity. Qed.

Lemma before_comma_split (s : string) :
  s = before_comma s \/ exists rest, s = before_comma s ++ String ","%char rest.
Proof.
  induction s as [| c s IH]; cbn [before_comma].
  - left. reflexivity.
  - destruct (Ascii.eqb_spec c ","%char) as [-> | Hc].
    + right. exists s. reflexivity.
    + destruct IH as [IH | [rest IH]].
      * left. congruence.
      * right. exists rest. rewrite append_cons. congruence.
Qed.

Lemma before_comma_no_comma (s pre post : string) :
  before_comma s <> pre ++ String ","%char post.
Proof.
  revert pre. induction s as [| c s IH]; intros pre; cbn [before_comma].
  - destruct pre; rewrite ?append_nil_l, ?append_cons; discriminate.
  - destruct (Ascii.eqb_spec c ","%char) as [-> | Hc].
    + destruct pre; rewrite ?append_nil_l, ?append_cons; discriminate.
    + destruct pre as [| c' pre]; rewrite ?append_nil_l, ?append_cons.
      * intros [= -> _]. contradiction.
      * intros [= _ H]. exact (IH pre H).
Qed.

(** X1: behind a proxy, that is with a non-empty [X-Forwarded-For]
    header, the address of the request is the part of the header before
    its first comma: it holds no comma, the header is that part alone or
    that part, a comma and a rest, and the two other sources of the
    address are not looked at. A handshake then declares a valid
    [cashless_ip] exactly when it declares that part. *)
Theorem get_request_ip_forwarded (meta : META) (header : string) :
  HTTP_X_FORWARDED_FOR meta = Some header ->
  header <> "" ->
  exists ip,
    get_request_ip meta = Some ip
    /\ (forall pre post, ip <> pre ++ String ","%char post)
    /\ (header = ip \/ exists rest, header = ip ++ String ","%char rest)
    /\ (forall real remote,
          get_request_ip (MkMETA (Some header) real remote) = Some ip)
    /\ (forall value,
          HandshakeValidator.validate_cashless_ip meta value = Return value
          <-> value = ip).
Proof.
  intros Hheader Hne. exists (before_comma header).
  assert (forall real remote,
            get_request_ip (MkMETA (Some header) real remote)
            = Some (before_comma header)) as Hip.
  { intros real remote. unfold get_request_ip. simpl.
    destruct header; [contradiction | reflexivity]. }
  assert (get_request_ip meta = Some (before_comma header)) as Hmeta.
  { destruct meta as [fwd real remote]. simpl in Hheader. subst fwd. apply Hip. }
  split; [exact Hmeta |].
  split; [intros pre post; apply before_comma_no_comma |].
  split; [apply before_comma_split |].
  split; [exact Hip |].
  intros value. unfold HandshakeValidator.validate_cashless_ip. rewrite Hmeta.
  case_bool_decide as Hv; split; intros H; try discriminate; congruence.
Qed.

(** The request of the demonstration came through two proxies. *)
Lemma get_request_ip_forwarded_witness :
  get_request_ip Demo.meta = Some "10.0.0.7"
  /\ HandshakeValidator.validate_cashless_ip Demo.meta "10.0.0.7" = Return "10.0.0.7".
Proof.
  destruct (get_request_ip_forwarded Demo.meta "10.0.0.7, 10.0.0.1" eq_refl)
    as (ip & Hip & _ & _ & _ & Hvalid).
  - discriminate.
  - split; [reflexivity |]. apply Hvalid.
    vm_compute in Hip. injection Hip as <-. reflexivity.
Defined.

(** X2: [get_request_ip] finds no address exactly when [REMOTE_ADDR] is
    missing and each of the two proxy headers is missing or empty; an
    empty header counts as a missing one. *)
Theorem get_request_ip_none (meta : META) :
  (get_request_ip meta = None
   <-> truthy (HTTP_X_FORWARDED_FOR meta) = false
       /\ truthy (HTTP_X_REAL_IP meta) = false
       /\ REMOTE_ADDR meta = None)
  /\ (forall real remote,
        get_request_ip (MkMETA (Some "") real remote)
        = get_request_ip (MkMETA None real remote))
  /\ (forall remote,
        get_request_ip (MkMETA None (Some "") remote)
        = get_request_ip (MkMETA None None remote)).
Proof.
  split; [| split; reflexivity].
  destruct meta as [[[| c fwd] |] [[| c' real] |] remote]; unfold get_request_ip;
    simpl; split; try discriminate; try tauto;
    intros (H1 & H2 & H3); try discriminate; assumption.
Qed.

(** ** What a verified signature means *)

Section SignatureSoundness.

Context {RSAPublicKey bytes APIKey : Type}.
Variable encode : string -> bytes.
Variable load_pem_public_key : bytes -> exn + RSAPublicKey.
Variable urlsafe_b64decode : string -> exn + bytes.
Variable pss_sha256_verify : RSAPublicKey -> bytes -> bytes -> exn + unit.
Variable get_from_key : string -> exn + APIKey.
Variable cashless_public_key : APIKey -> exn + string.
Variable super_has_permission : Permissions.request -> outcome bool.

Lemma verify_signature_true public_key message signature :
  Utils.verify_signature RSAPublicKey bytes encode load_pem_public_key
    urlsafe_b64decode pss_sha256_verify public_key message signature
  = Return true
  <-> exists key sig,
        load_pem_public_key (encode public_key) = inr key
        /\ urlsafe_b64decode signature = inr sig
        /\ pss_sha256_verify key sig (encode message) = inr tt.
Proof.
  unfold Utils.verify_signature, Utils.verify_signature_try. split.
  - destruct (load_pem_public_key (encode public_key)) as [e | key];
      [destruct e; discriminate |].
    destruct (urlsafe_b64decode signature) as [e | sig];
      [destruct e; discriminate |].
    destruct (pss_sha256_verify key sig (encode message)) as [e | []] eqn:Hv;
      [destruct e; discriminate |].
    intros _. exists key, sig. auto.
  - intros (key & sig & -> & -> & ->). reflexivity.
Qed.

(** X3: [verify_signature] answers [True] exactly when the key loads,
    the signature decodes and the library accepts the decoded signature
    for the encoded message under the loaded key; and it never raises
    InvalidSignature, the one exception it turns into [False]. *)
Theorem verify_signature_sound public_key message signature :
  (Utils.verify_signature RSAPublicKey bytes encode load_pem_public_key
     urlsafe_b64decode pss_sha256_verify public_key message signature
   = Return true
   <-> exists key sig,
         load_pem_public_key (encode public_key) = inr key
         /\ urlsafe_b64decode signature = inr sig
         /\ pss_sha256_verify key sig (encode message) = inr tt)
  /\ Utils.verify_signature RSAPublicKey bytes encode load_pem_public_key
       urlsafe_b64decode pss_sha256_verify public_key message signature
     <> Raise InvalidSignature
  /\ forall msg,
       Utils.verify_signature RSAPublicKey bytes encode load_pem_public_key
         urlsafe_b64decode pss_sha256_verify public_key message signature
       <> ValidationError msg.
Proof.
  split; [apply verify_signature_true |].
  unfold Utils.verify_signature.
  destruct (Utils.verify_signature_try _ _ _ _ _ _ _ _ _) as [[] | b];
    split; try discriminate; intros msg; discriminate.
Qed.

(** X4: [has_permission] grants access only to a request that carries a
    non-empty API key known to the key table and a non-empty signature
    which [verify_signature] accepts for the request's message under the
    public key of the key's place, and that the base class accepts too;
    without a key it answers [False] and looks nothing up. *)
Theorem has_permission_granted_only_if (req : Permissions.request) :
  (Permissions.has_permission RSAPublicKey bytes encode load_pem_public_key
     urlsafe_b64decode pss_sha256_verify APIKey get_from_key
     cashless_public_key super_has_permission req = Return true ->
   exists key api_key signature public_key,
     Permissions.request_key req = Some key /\ key <> ""
     /\ get_from_key key = inr api_key
     /\ Permissions.request_signature req = Some signature /\ signature <> ""
     /\ cashless_public_key api_key = inr public_key
     /\ Utils.verify_signature RSAPublicKey bytes encode load_pem_public_key
          urlsafe_b64decode pss_sha256_verify public_key
          (Permissions.request_message req) signature = Return true
     /\ super_has_permission req = Return true)
  /\ (truthy (Permissions.request_key req) = false ->
      Permissions.has_permission RSAPublicKey bytes encode load_pem_public_key
        urlsafe_b64decode pss_sha256_verify APIKey get_from_key
        cashless_public_key super_has_permission req = Return false)
  /\ (forall key api_key,
        Permissions.request_key req = Some key -> key <> "" ->
        get_from_key key = inr api_key ->
        truthy (Permissions.request_signature req) = false ->
        Permissions.has_permission RSAPublicKey bytes encode load_pem_public_key
          urlsafe_b64decode pss_sha256_verify APIKey get_from_key
          cashless_public_key super_has_permission req = Return false).
Proof.
  unfold Permissions.has_permission. split; [| split].
  - destruct (Permissions.request_key req) as [[| c key] |]; simpl; try discriminate.
    destruct (get_from_key (String c key)) as [e | api_key] eqn:Hget;
      [discriminate |].
    destruct (Permissions.request_signature req) as [[| c' signature] |]; simpl;
      try discriminate.
    destruct (cashless_public_key api_key) as [e | public_key] eqn:Hpk;
      [discriminate |].
    destruct (Utils.verify_signature _ _ _ _ _ _ _ _ _) as [[] | msg | e] eqn:Hv;
      try discriminate.
    intros Hsuper. simpl in Hv.
    exists (String c key), api_key, (String c' signature), public_key.
    split; [reflexivity |]. split; [discriminate |]. split; [assumption |].
    split; [reflexivity |]. split; [discriminate |]. split; [assumption |].
    split; assumption.
  - intros ->. reflexivity.
  - intros key api_key Hkey Hne Hget Hsig. rewrite Hkey. simpl.
    destruct key; [contradiction |]. rewrite Hget, Hsig. reflexivity.
Qed.

End SignatureSoundness.

(** A request signed for its message under the registered key passes; the
    same request with another signature of the right shape does not. *)
Example has_permission_signed :
  Permissions.toy_has_permission
    (Permissions.MkRequest (Some "k1") (Some "abcd") "abcd") = Return true
  /\ Permissions.toy_has_permission
       (Permissions.MkRequest (Some "k1") (Some "abce") "abcd") = Return false
  /\ Permissions.toy_has_permission
       (Permissions.MkRequest (Some "k2") (Some "abcd") "abcd") = Raise KeyError.
Proof. repeat split. Qed.

(** ** The classifier and the validation of a transaction, as a whole *)

Section EngineFacts.

Context (Mo : Models).
Import TransactionW2W.

(** X5: [get_action] only ever classifies a request as REFILL,
    SUBSCRIBE, BADGE, SALE or FUSION: no request is classified TRANSFER,
    CREATION, REFUND or VOID. *)
Theorem get_action_range db place s a act :
  get_action Mo db place s a = Return act ->
  act ∈ [Transaction.REFILL; Transaction.SUBSCRIBE; Transaction.BADGE;
         Transaction.SALE; Transaction.FUSION].
Proof.
  unfold get_action. intros H.
  repeat match type of H with
         | context [if ?b then _ else _] => destruct b
         | context [match ?x with _ => _ end] => destruct x
         end;
    try discriminate; injection H as <-; by_evaluation.
Qed.

(** X6: a request is classified FUSION exactly when it is not the
    gateway's refill, the place's wallet is neither its sender nor its
    receiver, its action hint is FUSION, the sender wallet has no user and
    is the ephemeral wallet of a card issued by the requesting place, and
    the receiver wallet has a user. *)
Theorem get_action_fusion db place s a :
  get_action Mo db place s a = Return Transaction.FUSION
  <-> is_stripe_refill Mo s a = false
      /\ place_wallet Mo place <> self_sender s
      /\ place_wallet Mo place <> self_receiver s
      /\ action a = Some Transaction.FUSION
      /\ wallet_user Mo db (sender a) = None
      /\ (exists c, wallet_card_ephemere Mo db (sender a) = Some c
                    /\ card_origin_place Mo c = place)
      /\ is_Some (wallet_user Mo db (receiver a)).
Proof.
  unfold get_action. split.
  - intros H.
    destruct (is_stripe_refill Mo s a); [discriminate |].
    case_bool_decide as Hs;
      [repeat match type of H with
              | context [if ?b then _ else _] => destruct b
              | context [match ?x with _ => _ end] => destruct x
              end; discriminate |].
    case_bool_decide as Hr;
      [unfold mem in H;
       repeat match type of H with
              | context [if ?b then _ else _] => destruct b
              | context [match ?x with _ => _ end] => destruct x
              end; discriminate |].
    case_bool_decide as Hhint; [| discriminate].
    destruct (wallet_user Mo db (sender a)) as [u |]; [discriminate |].
    destruct (wallet_card_ephemere Mo db (sender a)) as [c |]; [| discriminate].
    destruct (wallet_user Mo db (receiver a)) as [u |] eqn:Hu; [| discriminate].
    case_bool_decide as Hplace; [| discriminate].
    repeat split; try assumption; eauto.
  - intros (-> & Hs & Hr & Hhint & -> & (c & -> & Hplace) & [u ->]).
    rewrite (bool_decide_eq_false_2 _ Hs), (bool_decide_eq_false_2 _ Hr),
      (bool_decide_eq_true_2 _ Hhint), (bool_decide_eq_true_2 _ Hplace).
    reflexivity.
Qed.

Lemma check_sender_token_db s act db : (check_sender_token s act db).2 = db.
Proof.
  unfold check_sender_token.
  destruct (tokens db !! _) as [value |]; [| reflexivity].
  destruct (_ && _); reflexivity.
Qed.

(** The run of [validate] after the classification, step by step. *)
Lemma after_classification_run req s act db :
  after_classification Mo req s act db
  = match (check_sender_token s act db).1 with
    | Return _ =>
        let db0 := (get_or_create_receiver_token s db).2 in
        let crea := crea_transac_dict req s in
        let t := transaction_dict req s act in
        let db1 := if bool_decide (act = Transaction.REFILL)
                   then created Mo crea db0 else db0 in
        if bool_decide (act = Transaction.REFILL) && negb (verify_hash Mo db1 crea)
        then (ValidationError "Transaction hash is not valid", db1)
        else if verify_hash Mo (created Mo t db1) t
             then (Return t, created Mo t db1)
             else (ValidationError "Transaction hash is not valid", created Mo t db1)
    | ValidationError msg => (ValidationError msg, db)
    | Raise e => (Raise e, db)
    end.
Proof.
  unfold after_classification. unfold bind at 1.
  pose proof (check_sender_token_db s act db) as Hdb.
  destruct (check_sender_token s act db) as [[[] | msg | e] db'];
    simpl in Hdb; subst db'; simpl; try reflexivity.
  destruct (get_or_create_receiver_token_returns s db) as (db0 & Hrecv & _).
  rewrite (bind_Return _ _ _ _ _ Hrecv). rewrite Hrecv. simpl.
  unfold mint_if_refill. case_bool_decide as Hact; simpl.
  - unfold bind, Transaction_objects_create, check_hash, ret.
    destruct (verify_hash Mo (created Mo (crea_transac_dict req s) db0) _);
      simpl; [| reflexivity].
    destruct (verify_hash Mo _ (transaction_dict req s act)); reflexivity.
  - unfold bind, Transaction_objects_create, check_hash, ret.
    destruct (verify_hash Mo _ (transaction_dict req s act)); reflexivity.
Qed.

(** The three ways [validate] can go: no place, no action, or the run
    after the classification. *)
Lemma validate_run req a db :
  validate Mo req a db
  = match resolve_place Mo req (self_of a) a with
    | Return place =>
        match get_action Mo db place (self_of a) a with
        | Return act => after_classification Mo req (self_of a) act db
        | ValidationError msg => (ValidationError msg, db)
        | Raise e => (Raise e, db)
        end
    | ValidationError msg => (ValidationError msg, db)
    | Raise e => (Raise e, db)
    end.
Proof.
  destruct (resolve_place Mo req (self_of a) a) as [place | msg | e] eqn:Hplace.
  - destruct (get_action Mo db place (self_of a) a) as [act | msg | e] eqn:Hact.
    + exact (validate_classified Mo req a db place act Hplace Hact).
    + exact (validate_unclassified Mo req a db place msg Hplace Hact).
    + unfold validate, bind, lift. rewrite Hplace, Hact. reflexivity.
  - unfold validate, bind, lift. rewrite Hplace. reflexivity.
  - unfold validate, bind, lift. rewrite Hplace. reflexivity.
Qed.

Lemma get_or_create_receiver_token_transactions s db :
  transactions (get_or_create_receiver_token s db).2 = transactions db.
Proof.
  destruct (get_or_create_receiver_token_returns s db) as (db0 & -> & H & _).
  exact H.
Qed.

Lemma validate_rejected_db req a db o db' :
  validate Mo req a db = (o, db') ->
  is_return o = false ->
  o <> ValidationError "Transaction hash is not valid" ->
  db' = db.
Proof.
  rewrite validate_run.
  destruct (resolve_place Mo req (self_of a) a) as [place | msg | e];
    [| intros [= <- <-]; reflexivity ..].
  destruct (get_action Mo db place (self_of a) a) as [act | msg | e];
    [| intros [= <- <-]; reflexivity ..].
  rewrite after_classification_run.
  destruct (check_sender_token (self_of a) act db).1 as [[] | msg | e];
    [| intros [= <- <-]; reflexivity ..].
  cbv zeta.
  destruct (_ && _); [intros [= <- <-] _ H; contradiction |].
  destruct (verify_hash Mo _ _); intros [= <- <-]; [discriminate |].
  intros _ H. contradiction.
Qed.

Lemma validate_returned req a db t db' :
  validate Mo req a db = (Return t, db') ->
  exists place act,
    resolve_place Mo req (self_of a) a = Return place
    /\ get_action Mo db place (self_of a) a = Return act
    /\ t = transaction_dict req (self_of a) act
    /\ transactions db'
       = (transactions db
          ++ (if bool_decide (act = Transaction.REFILL)
              then [crea_transac_dict req (self_of a); t] else [t]))%list
    /\ verify_hash Mo db' t = true.
Proof.
  rewrite validate_run.
  destruct (resolve_place Mo req (self_of a) a) as [place | msg | e] eqn:Hplace;
    [| discriminate ..].
  destruct (get_action Mo db place (self_of a) a) as [act | msg | e] eqn:Hact;
    [| discriminate ..].
  rewrite after_classification_run.
  destruct (check_sender_token (self_of a) act db).1 as [[] | msg | e];
    [| discriminate ..].
  cbv zeta.
  destruct (_ && _); [discriminate |].
  destruct (verify_hash Mo _ _) eqn:Hhash; [| discriminate].
  intros [= <- <-]. exists place, act.
  split; [reflexivity |]. split; [exact Hact |]. split; [reflexivity |].
  split; [| exact Hhash].
  case_bool_decide; simpl; rewrite get_or_create_receiver_token_transactions;
    rewrite <- ?app_assoc; reflexivity.
Qed.

(** X7: a wallet-to-wallet request that is refused, or that fails with
    an exception, leaves the whole database as it was, unless the refusal
    is that of a transaction hash: the check of the amount, the
    classification and the check of the sender's token write nothing. *)
Theorem is_valid_rejection_changes_nothing req a db o db' :
  is_valid Mo req a db = (o, db') ->
  is_return o = false ->
  o <> ValidationError "Transaction hash is not valid" ->
  db' = db.
Proof.
  unfold is_valid, bind at 1, lift.
  destruct (validate_amount (amount a)) as [v | msg | e];
    [| intros [= <- <-]; reflexivity ..].
  apply validate_rejected_db.
Qed.

(** X8: a wallet-to-wallet request that is accepted has a strictly
    positive amount and was classified; the transaction returned carries
    the sender, receiver, asset and amount of the request and the
    classified action, its hash verifies, and the transaction table has
    grown by exactly that row, preceded by the CREATION row when the
    action is REFILL. *)
Theorem is_valid_accepted req a db t db' :
  is_valid Mo req a db = (Return t, db') ->
  0 < amount a
  /\ exists place act,
       resolve_place Mo req (self_of a) a = Return place
       /\ get_action Mo db place (self_of a) a = Return act
       /\ Transaction.action_ t = act
       /\ Transaction.sender t = sender a
       /\ Transaction.receiver t = receiver a
       /\ Transaction.asset t = asset a
       /\ Transaction.amount t = amount a
       /\ verify_hash Mo db' t = true
       /\ transactions db'
          = (transactions db
             ++ (if bool_decide (act = Transaction.REFILL)
                 then [crea_transac_dict req (self_of a); t] else [t]))%list.
Proof.
  unfold is_valid, bind at 1, lift, validate_amount.
  destruct (Z.leb_spec (amount a) 0) as [| Hpos]; [discriminate |].
  intros H. split; [exact Hpos |].
  apply validate_returned in H as (place & act & Hplace & Hact & -> & Htx & Hhash).
  exists place, act. repeat split; assumption.
Qed.

(** X9: without a requesting place, [validate] accepts nothing but the
    gateway's refill: any other request is refused with "Place not found";
    the gateway's refill is classified REFILL for the place that issued
    the user card, and raises AttributeError when no user card comes with
    it. Nothing is written in the two failing cases. *)
Theorem validate_without_place req a db :
  request_place req = None ->
  (is_stripe_refill Mo (self_of a) a = false ->
     validate Mo req a db = (ValidationError "Place not found", db))
  /\ (is_stripe_refill Mo (self_of a) a = true ->
      self_user_card (self_of a) = None ->
      validate Mo req a db = (Raise AttributeError, db))
  /\ (forall c,
        is_stripe_refill Mo (self_of a) a = true ->
        self_user_card (self_of a) = Some c ->
        validate Mo req a db
        = after_classification Mo req (self_of a) Transaction.REFILL db).
Proof.
  intros Hplace. rewrite validate_run. unfold resolve_place. rewrite Hplace.
  split; [| split].
  - intros ->. reflexivity.
  - intros -> ->. reflexivity.
  - intros c Hstripe Hcard. rewrite Hstripe, Hcard.
    unfold get_action. rewrite Hstripe. reflexivity.
Qed.

End EngineFacts.

(** The sale of the demonstration is classified SALE, one of the five
    actions. *)
Lemma get_action_range_witness :
  let a := Demo.w2w Demo.WU Demo.WP Demo.LOCAL 4 None in
  TransactionW2W.get_action Demo.honest Demo.db0 Demo.P (TransactionW2W.self_of a) a
  = Return Transaction.SALE
  /\ Transaction.SALE
     ∈ [Transaction.REFILL; Transaction.SUBSCRIBE; Transaction.BADGE;
        Transaction.SALE; Transaction.FUSION].
Proof.
  intros a. split; [reflexivity |].
  apply (get_action_range Demo.honest Demo.db0 Demo.P (TransactionW2W.self_of a) a).
  reflexivity.
Defined.

(** User 1 holds 6 of the local asset and pays 100: refused, and the
    database is the same. *)
Lemma is_valid_rejection_changes_nothing_witness :
  let r := TransactionW2W.is_valid Demo.honest Demo.req
             (Demo.w2w Demo.WU Demo.WP Demo.LOCAL 100 None) Demo.db0 in
  r.1 = ValidationError "Not enough token on sender wallet" /\ r.2 = Demo.db0.
Proof.
  intros r. split; [reflexivity |].
  apply (is_valid_rejection_changes_nothing Demo.honest Demo.req
           (Demo.w2w Demo.WU Demo.WP Demo.LOCAL 100 None) Demo.db0 r.1 r.2).
  - apply surjective_pairing.
  - reflexivity.
  - vm_compute. discriminate.
Defined.

(** User 1 pays 4 of the local asset to place 1: one SALE row. *)
Lemma is_valid_accepted_witness :
  let a := Demo.w2w Demo.WU Demo.WP Demo.LOCAL 4 None in
  let t := TransactionW2W.transaction_dict Demo.req (TransactionW2W.self_of a)
             Transaction.SALE in
  let r := TransactionW2W.is_valid Demo.honest Demo.req a Demo.db0 in
  r.1 = Return t /\ transactions r.2 = [t].
Proof.
  intros a t r. split; [reflexivity |].
  destruct (is_valid_accepted Demo.honest Demo.req a Demo.db0 t r.2)
    as (_ & place & act & Hplace & Hact & _ & _ & _ & _ & _ & _ & Htx).
  - vm_compute. reflexivity.
  - vm_compute in Hplace. injection Hplace as <-.
    vm_compute in Hact. injection Hact as <-. exact Htx.
Defined.

(** The same sale sent without a place. *)
Lemma validate_without_place_witness :
  TransactionW2W.validate Demo.honest (MkRequest None Demo.meta)
    (Demo.w2w Demo.WU Demo.WP Demo.LOCAL 4 None) Demo.db0
  = (ValidationError "Place not found", Demo.db0).
Proof.
  apply (validate_without_place Demo.honest (MkRequest None Demo.meta)
           (Demo.w2w Demo.WU Demo.WP Demo.LOCAL 4 None) Demo.db0 eq_refl).
  reflexivity.
Defined.

(** ** Refusals of the refund and void sweep *)

Section RefundRefusals.

Context (Mo : Models).
Import CardRefundOrVoidValidator.

(** X10: the sweep is refused, and nothing is written (no transaction,
    and the card of a VOID keeps its user and ephemeral wallet), when the
    request presents no primary card or one that is not among the place's
    primary cards, when it presents no user card, and when its action is
    neither REFUND nor VOID; without a requesting place the validator
    raises AttributeError. *)
Theorem refund_refusals req a db :
  (request_place req = None -> validate Mo req a db = (Raise AttributeError, db))
  /\ (forall place,
        request_place req = Some place ->
        (forall pc, or_else (primary_card_uuid a) (primary_card_fisrtTagId a) = Some pc ->
                    pc ∉ place_primary_cards Mo place) ->
        validate Mo req a db
        = (ValidationError "Primary card must be in place primary cards", db))
  /\ (forall place pc,
        request_place req = Some place ->
        or_else (primary_card_uuid a) (primary_card_fisrtTagId a) = Some pc ->
        pc ∈ place_primary_cards Mo place ->
        or_else (user_card_uuid a) (user_card_firstTagId a) = None ->
        validate Mo req a db
        = (ValidationError "User card is required for void or refund", db))
  /\ (forall v,
        action a = Some v ->
        v <> Transaction.REFUND -> v <> Transaction.VOID ->
        is_valid Mo req a db
        = (ValidationError "Action must be REFUND or VOID", db)).
Proof.
  split; [| split; [| split]].
  - intros Hplace. unfold validate. rewrite Hplace. reflexivity.
  - intros place Hplace Hpc. unfold validate. rewrite Hplace.
    destruct (or_else (primary_card_uuid a) (primary_card_fisrtTagId a)) as [pc |];
      [| reflexivity].
    unfold mem. rewrite (bool_decide_eq_false_2 _ (Hpc pc eq_refl)). reflexivity.
  - intros place pc Hplace Hpc Hin Huc. unfold validate.
    rewrite Hplace, Hpc, Huc. unfold mem. rewrite (bool_decide_eq_true_2 _ Hin).
    reflexivity.
  - intros v Hv Hrefund Hvoid. unfold is_valid, validate_action. rewrite Hv.
    rewrite bool_decide_eq_false_2; [reflexivity |].
    rewrite !elem_of_cons, elem_of_nil. tauto.
Qed.

End RefundRefusals.

(** A void presented with the user's own card as primary card: refused,
    and the card keeps its user. *)
Example void_without_primary_card :
  let a := {| CardRefundOrVoidValidator.primary_card_uuid := Some Demo.C2;
              CardRefundOrVoidValidator.primary_card_fisrtTagId := None;
              CardRefundOrVoidValidator.user_card_uuid := Some Demo.C2;
              CardRefundOrVoidValidator.user_card_firstTagId := None;
              CardRefundOrVoidValidator.action := Some Transaction.VOID |} in
  CardRefundOrVoidValidator.is_valid Demo.honest Demo.req a Demo.db0
  = (ValidationError "Primary card must be in place primary cards", Demo.db0).
Proof. reflexivity. Qed.

(** ** Claiming a card *)

Section ClaimFacts.

Context (Mo : Models).
Import WalletCreateSerializer.

(** X11: a card that already has a user is never given another one:
    claimed under the email of its own user it is returned as it is, and
    under any other email, known or new, the claim is refused; in both
    cases nothing is written and no user is created. *)
Theorem card_with_user_is_never_relinked req a db c u' :
  or_else (card_first_tag_id a) (card_qrcode_uuid a) = Some c ->
  card_user db !! c = Some u' ->
  validate Mo req a db
  = (if bool_decide (users db !! email a = Some u')
     then Return u'
     else ValidationError "Card already linked to another user", db).
Proof.
  intros Hcard Hu. unfold validate.
  rewrite (bind_Return _ _ db (users db !! email a) db) by reflexivity.
  rewrite Hcard.
  destruct (users db !! email a) as [u |].
  - rewrite (bind_Return _ _ db (Some u') db) by (unfold gets; rewrite Hu; reflexivity).
    rewrite (bind_Return _ _ db (card_wallet_ephemere db !! c) db) by reflexivity.
    destruct (decide (u' = u)) as [-> | Hne].
    + rewrite !bool_decide_eq_true_2 by reflexivity. reflexivity.
    + rewrite !bool_decide_eq_false_2 by congruence. reflexivity.
  - rewrite (bind_Return _ _ db (Some u') db) by (unfold gets; rewrite Hu; reflexivity).
    rewrite (bind_Return _ _ db (card_wallet_ephemere db !! c) db) by reflexivity.
    rewrite bool_decide_eq_false_2 by discriminate. reflexivity.
Qed.

(** X12: a known email that comes without a card is refused with
    "User not found ?", and nothing is written. *)
Theorem known_user_without_card_refused req a db u :
  users db !! email a = Some u ->
  or_else (card_first_tag_id a) (card_qrcode_uuid a) = None ->
  validate Mo req a db = (ValidationError "User not found ?", db).
Proof.
  intros Hu Hcard. unfold validate.
  rewrite (bind_Return _ _ db (Some u) db) by (unfold gets; rewrite Hu; reflexivity).
  rewrite Hcard. reflexivity.
Qed.

(** X13: a card without user goes to the claimant in every case but the
    fusion. A known user gets a card that has no ephemeral wallet, and
    nothing else changes. A new email creates its user, handing the card's
    ephemeral wallet, if it has one, over to [get_or_create_user]; the card
    then has this user and no ephemeral wallet. *)
Theorem unowned_card_is_linked req a db c :
  or_else (card_first_tag_id a) (card_qrcode_uuid a) = Some c ->
  card_user db !! c = None ->
  (forall u,
     users db !! email a = Some u ->
     card_wallet_ephemere db !! c = None ->
     validate Mo req a db = (Return u, set_card c (Some u) None db))
  /\ (users db !! email a = None ->
      let ip := match req with
                | Some r => get_request_ip (request_META r)
                | None => None
                end in
      let created :=
        get_or_create_user Mo (email a) ip (card_wallet_ephemere db !! c) db in
      validate Mo req a db
      = (Return created.1, set_card c (Some created.1) None created.2)
      /\ card_user (validate Mo req a db).2 !! c = Some created.1
      /\ card_wallet_ephemere (validate Mo req a db).2 !! c = None).
Proof.
  intros Hcard Hu. split.
  - intros u Hknown Hw. unfold validate.
    rewrite (bind_Return _ _ db (Some u) db)
      by (unfold gets; rewrite Hknown; reflexivity).
    rewrite Hcard.
    rewrite (bind_Return _ _ db None db) by (unfold gets; rewrite Hu; reflexivity).
    rewrite (bind_Return _ _ db None db) by (unfold gets; rewrite Hw; reflexivity).
    reflexivity.
  - intros Hnew ip created.
    assert (validate Mo req a db
            = (Return created.1, set_card c (Some created.1) None created.2)) as Hrun.
    { unfold validate.
      rewrite (bind_Return _ _ db None db)
        by (unfold gets; rewrite Hnew; reflexivity).
      rewrite Hcard.
      rewrite (bind_Return _ _ db None db) by (unfold gets; rewrite Hu; reflexivity).
      rewrite (bind_Return _ _ db (card_wallet_ephemere db !! c) db) by reflexivity.
      subst created ip.
      destruct (card_wallet_ephemere db !! c) as [w |];
        unfold bind, create_user, modify, ret;
        destruct (get_or_create_user Mo _ _ _ db) as [user db1]; reflexivity. }
    split; [exact Hrun |]. rewrite Hrun. simpl.
    split; [apply lookup_insert_eq | apply lookup_delete_eq].
Qed.

End ClaimFacts.

(** User 2 claims the card of user 1. *)
Lemma card_with_user_is_never_relinked_witness :
  WalletCreateSerializer.validate Demo.honest (Some Demo.req)
    (WalletCreateSerializer.Attrs "u2@example.org" (Some Demo.C2) None) Demo.db0
  = (ValidationError "Card already linked to another user", Demo.db0).
Proof.
  apply (card_with_user_is_never_relinked Demo.honest (Some Demo.req)
           (WalletCreateSerializer.Attrs "u2@example.org" (Some Demo.C2) None)
           Demo.db0 Demo.C2 Demo.U); reflexivity.
Defined.

(** User 1 asks for a wallet again, without a card. *)
Lemma known_user_without_card_refused_witness :
  WalletCreateSerializer.validate Demo.honest (Some Demo.req)
    (WalletCreateSerializer.Attrs "u1@example.org" None None) Demo.db0
  = (ValidationError "User not found ?", Demo.db0).
Proof.
  apply (known_user_without_card_refused Demo.honest (Some Demo.req)
           (WalletCreateSerializer.Attrs "u1@example.org" None None)
           Demo.db0 Demo.U); reflexivity.
Defined.

(** User 1 claims the unused card 101. *)
Lemma unowned_card_is_linked_witness :
  WalletCreateSerializer.validate Demo.honest (Some Demo.req)
    (WalletCreateSerializer.Attrs "u1@example.org" (Some Demo.C1) None) Demo.db0
  = (Return Demo.U, set_card Demo.C1 (Some Demo.U) None Demo.db0).
Proof.
  exact (proj1 (unowned_card_is_linked Demo.honest (Some Demo.req)
                  (WalletCreateSerializer.Attrs "u1@example.org" (Some Demo.C1) None)
                  Demo.db0 Demo.C1 eq_refl eq_refl)
           Demo.U eq_refl eq_refl).
Defined.

(** ** Fusions that move nothing *)

Section FusionEdges.

Context (Mo : Models).
Import WalletCreateSerializer.

Lemma validate_fusion_branch req a db c w u :
  users db !! email a = Some u ->
  or_else (card_first_tag_id a) (card_qrcode_uuid a) = Some c ->
  card_user db !! c = None ->
  card_wallet_ephemere db !! c = Some w ->
  validate Mo req a db = bind (fusion Mo req c w u) (fun _ => ret u) db.
Proof.
  intros Huser Hcard Hu Hw. unfold validate.
  rewrite (bind_Return _ _ db (Some u) db) by (unfold gets; rewrite Huser; reflexivity).
  rewrite Hcard.
  rewrite (bind_Return _ _ db None db) by (unfold gets; rewrite Hu; reflexivity).
  rewrite (bind_Return _ _ db (Some w) db) by (unfold gets; rewrite Hw; reflexivity).
  reflexivity.
Qed.

(** X14: when the ephemeral wallet of the card holds no positive
    balance, the claim of a known user succeeds without any transaction,
    with or without a request: the card gets the user, loses its ephemeral
    wallet, and nothing else changes. *)
Theorem fusion_of_empty_wallet req a db c w u :
  users db !! email a = Some u ->
  or_else (card_first_tag_id a) (card_qrcode_uuid a) = Some c ->
  card_user db !! c = None ->
  card_wallet_ephemere db !! c = Some w ->
  positive_tokens db w = [] ->
  validate Mo req a db = (Return u, set_card c (Some u) None db).
Proof.
  intros Huser Hcard Hu Hw Hempty.
  rewrite (validate_fusion_branch req a db c w u) by assumption.
  assert (fusion Mo req c w u db = (Return tt, set_card c (Some u) None db)) as Hf.
  { unfold fusion.
    rewrite (bind_Return _ _ db tt db).
    - unfold retire_wallet_ephemere. rewrite Hw, Hempty. reflexivity.
    - case_bool_decide; [| reflexivity].
      unfold bind, gets. rewrite Hempty. reflexivity. }
  rewrite (bind_Return _ _ _ _ _ Hf). reflexivity.
Qed.

(** X15: when the ephemeral wallet of the card is the very wallet of the
    claiming user and holds a positive balance, no transfer is attempted
    and the claim always fails with "Wallet ephemere not empty after
    fusion"; nothing is written. *)
Theorem fusion_into_same_wallet_fails req a db c w u :
  users db !! email a = Some u ->
  or_else (card_first_tag_id a) (card_qrcode_uuid a) = Some c ->
  card_user db !! c = None ->
  card_wallet_ephemere db !! c = Some w ->
  w = user_wallet Mo u ->
  positive_tokens db w <> [] ->
  validate Mo req a db
  = (ValidationError "Wallet ephemere not empty after fusion", db).
Proof.
  intros Huser Hcard Hu Hw Hsame Hpos.
  rewrite (validate_fusion_branch req a db c w u) by assumption.
  apply bind_ValidationError. unfold fusion.
  rewrite bool_decide_eq_false_2 by (intros H; exact (H Hsame)).
  rewrite (bind_Return _ _ db tt db) by reflexivity.
  unfold retire_wallet_ephemere. rewrite Hw.
  destruct (positive_tokens db w); [contradiction | reflexivity].
Qed.

(** X16: a fusion that has a balance to move is refused with "No action
    authorized", and nothing is written, when it is requested by a place
    whose wallet is neither of the two wallets and that did not issue the
    card carrying the ephemeral wallet. *)
Theorem fusion_by_foreign_place_refused r a db c w u p :
  users db !! email a = Some u ->
  or_else (card_first_tag_id a) (card_qrcode_uuid a) = Some c ->
  card_user db !! c = None ->
  card_wallet_ephemere db !! c = Some w ->
  w <> user_wallet Mo u ->
  positive_tokens db w <> [] ->
  request_place r = Some p ->
  place_wallet Mo p <> w ->
  place_wallet Mo p <> user_wallet Mo u ->
  (forall c', wallet_card_ephemere Mo db w = Some c' -> card_origin_place Mo c' <> p) ->
  validate Mo (Some r) a db = (ValidationError "No action authorized", db).
Proof.
  intros Huser Hcard Hu Hw Hne Hpos Hplace Hs Hr Horigin.
  rewrite (validate_fusion_branch (Some r) a db c w u) by assumption.
  apply bind_ValidationError. unfold fusion. apply bind_ValidationError.
  rewrite (bool_decide_eq_true_2 _ Hne).
  rewrite (bind_Return _ _ db (positive_tokens db w) db) by reflexivity.
  destruct (positive_tokens db w) as [| [asset value] rest] eqn:Htokens;
    [contradiction |].
  assert (0 < value) as Hvalue.
  { apply (elem_of_positive_tokens db w asset value).
    rewrite Htokens. left. }
  simpl. apply bind_ValidationError. unfold fuse_token.
  apply bind_ValidationError. unfold TransactionW2W.is_valid.
  rewrite (bind_Return _ _ db value db)
    by (unfold lift; simpl; rewrite (validate_amount_positive _ Hvalue); reflexivity).
  apply (validate_unclassified Mo r _ db p); [unfold TransactionW2W.resolve_place;
                                              rewrite Hplace; reflexivity |].
  unfold TransactionW2W.get_action, TransactionW2W.is_stripe_refill. simpl.
  rewrite (bool_decide_eq_false_2 _ Hs), (bool_decide_eq_false_2 _ Hr).
  destruct (wallet_user Mo db w); [reflexivity |].
  destruct (wallet_card_ephemere Mo db w) as [c' |] eqn:Hc'; [| reflexivity].
  destruct (wallet_user Mo db (user_wallet Mo u)); [| reflexivity].
  rewrite (bool_decide_eq_false_2 _ (Horigin c' eq_refl)). reflexivity.
Qed.

End FusionEdges.

(** Card 101 given the empty ephemeral wallet 70, claimed by user 2
    outside of any request. *)
Lemma fusion_of_empty_wallet_witness :
  let db := set_card Demo.C1 None (Some 70%positive) Demo.db0 in
  WalletCreateSerializer.validate Demo.honest None
    (WalletCreateSerializer.Attrs "u2@example.org" (Some Demo.C1) None) db
  = (Return Demo.U2, set_card Demo.C1 (Some Demo.U2) None db).
Proof.
  intros db.
  apply (fusion_of_empty_wallet Demo.honest None
           (WalletCreateSerializer.Attrs "u2@example.org" (Some Demo.C1) None)
           db Demo.C1 70%positive Demo.U2); reflexivity.
Defined.

(** Card 101 given the wallet of user 1 as ephemeral wallet, claimed by
    user 1. *)
Lemma fusion_into_same_wallet_fails_witness :
  let db := set_card Demo.C1 None (Some Demo.WU) Demo.db0 in
  WalletCreateSerializer.validate Demo.honest (Some Demo.req)
    (WalletCreateSerializer.Attrs "u1@example.org" (Some Demo.C1) None) db
  = (ValidationError "Wallet ephemere not empty after fusion", db).
Proof.
  intros db.
  apply (fusion_into_same_wallet_fails Demo.honest (Some Demo.req)
           (WalletCreateSerializer.Attrs "u1@example.org" (Some Demo.C1) None)
           db Demo.C1 Demo.WU Demo.U); try reflexivity.
  vm_compute. discriminate.
Defined.

(** User 2 claims card 103, issued by place 1, through place 2. *)
Lemma fusion_by_foreign_place_refused_witness :
  WalletCreateSerializer.validate Demo.honest
    (Some (MkRequest (Some Demo.P2) Demo.meta)) Demo.claim_card Demo.db0
  = (ValidationError "No action authorized", Demo.db0).
Proof.
  apply (fusion_by_foreign_place_refused Demo.honest
           (MkRequest (Some Demo.P2) Demo.meta) Demo.claim_card Demo.db0
           Demo.C3 Demo.WE Demo.U2 Demo.P2); try reflexivity.
  - by_evaluation.
  - vm_compute. discriminate.
  - by_evaluation.
  - by_evaluation.
  - intros c' _. vm_compute. discriminate.
Defined.

(** ** One generation per request *)

Section GenerationFacts.

Import CardCreateValidator.

(** Once [self.origin] is set, a generation is accepted exactly when it
    is the generation of that origin, and the state stays as it is. *)
Lemma validate_generation_with_origin p value o table :
  validate_generation (Some p) value (MkState (Some o) table)
  = (if bool_decide (value = origin_generation o)
     then Return value
     else ValidationError "One generation per request", MkState (Some o) table).
Proof.
  unfold validate_generation. simpl.
  destruct (decide (value = origin_generation o)) as [-> | Hne].
  - rewrite bool_decide_eq_false_2 by (intros H; exact (H eq_refl)).
    rewrite bool_decide_eq_true_2 by reflexivity. reflexivity.
  - rewrite bool_decide_eq_true_2 by congruence.
    rewrite bool_decide_eq_false_2 by exact Hne. reflexivity.
Qed.

Lemma validate_generations_with_origin p values o table :
  validate_generations (Some p) values (MkState (Some o) table)
  = ((fun v => if bool_decide (v = origin_generation o)
               then Return v
               else ValidationError "One generation per request") <$> values,
     MkState (Some o) table).
Proof.
  induction values as [| v values IH]; [reflexivity |].
  cbn [validate_generations].
  rewrite validate_generation_with_origin, IH. reflexivity.
Qed.

(** The first generation a serializer validates is accepted and sets
    [self.origin]. *)
Lemma validate_generation_first p value table :
  validate_generation (Some p) value (MkState None table)
  = (Return value,
     MkState (Some (MkOrigin p value))
             (if bool_decide (MkOrigin p value ∈ table) then table
              else table ++ [MkOrigin p value])%list).
Proof.
  unfold validate_generation, get_or_create. cbn [self_origin origins].
  destruct (bool_decide (MkOrigin p value ∈ table)); cbn [origin_generation];
    rewrite bool_decide_eq_false_2 by (intros H; exact (H eq_refl)); reflexivity.
Qed.

(** X17: when one serializer validates the generations of the cards of
    a request in turn, the first generation is accepted and fixes the
    origin of the request; each later one is accepted exactly when it
    equals the first, and refused with "One generation per request"
    otherwise. The origin is stored once: the table gains the row of the
    place and the first generation if it did not hold it, and no other
    row. *)
Theorem one_generation_per_request p first others table :
  let r := validate_generations (Some p) (first :: others) (MkState None table) in
  let o := MkOrigin p first in
  r.1 = Return first
        :: ((fun v => if bool_decide (v = first)
                      then Return v
                      else ValidationError "One generation per request") <$> others)
  /\ self_origin r.2 = Some o
  /\ origins r.2 = (if bool_decide (o ∈ table) then table else table ++ [o])%list.
Proof.
  intros r o. subst r. cbn [validate_generations].
  rewrite validate_generation_first. fold o.
  rewrite validate_generations_with_origin. repeat split.
Qed.

(** Without a requesting place every generation is refused and nothing
    is stored. *)
Lemma validate_generation_without_place value st :
  validate_generation None value st = (ValidationError "Place not found", st).
Proof. reflexivity. Qed.

End GenerationFacts.

(** A request of three cards, the second of another generation. *)
Example generations_of_a_request :
  (CardCreateValidator.validate_generations (Some Demo.P) [1; 2; 1]
     (CardCreateValidator.MkState None [])).1
  = [Return 1; ValidationError "One generation per request"; Return 1].
Proof. reflexivity. Qed.

(** ** The tokens a place is shown *)

Lemma elem_of_wallet_tokens db w asset value :
  (asset, value) ∈ WalletSerializer.wallet_tokens db w
  <-> tokens db !! (w, asset) = Some value.
Proof.
  unfold WalletSerializer.wallet_tokens. rewrite list_elem_of_omap. split.
  - intros ([[w' a] v] & Hin & Hf).
    apply elem_of_map_to_list in Hin.
    case_bool_decide as Hw; [| discriminate].
    injection Hf as <- <-. subst w'. exact Hin.
  - intros Hlookup. exists ((w, asset), value).
    split; [by apply elem_of_map_to_list |].
    rewrite bool_decide_eq_true_2 by reflexivity. reflexivity.
Qed.

Lemma NoDup_wallet_tokens db w : NoDup (WalletSerializer.wallet_tokens db w).
Proof.
  unfold WalletSerializer.wallet_tokens.
  apply NoDup_omap_inj; [| apply NoDup_map_to_list].
  intros [[w1 a1] v1] [[w2 a2] v2] [a v] _ _ H1 H2.
  case_bool_decide; [| discriminate]. case_bool_decide; [| discriminate].
  congruence.
Qed.

(** X18: [get_tokens] shows a place the tokens of the wallet in the
    assets the place accepts, each once and with its value, whatever the
    value, and nothing else: no token of another wallet and none in an
    asset the place does not accept. Without a request or without a place
    it raises "Place not found". *)
Theorem get_tokens_accepted_only (Mo : Models) (req : option request)
    (obj : wallet_pk) (db : DB) :
  (forall r place,
     req = Some r -> request_place r = Some place ->
     exists shown,
       WalletSerializer.get_tokens Mo req obj db = Return shown
       /\ NoDup shown
       /\ forall asset value,
            (asset, value) ∈ shown
            <-> tokens db !! (obj, asset) = Some value
                /\ asset ∈ place_accepted_assets Mo place)
  /\ (req = None \/ (exists r, req = Some r /\ request_place r = None) ->
      WalletSerializer.get_tokens Mo req obj db
      = ValidationError "Place not found").
Proof.
  split.
  - intros r place -> Hplace. unfold WalletSerializer.get_tokens. rewrite Hplace.
    eexists. split; [reflexivity |].
    split; [apply NoDup_filter, NoDup_wallet_tokens |].
    intros asset value. rewrite list_elem_of_filter, elem_of_wallet_tokens.
    simpl. tauto.
  - intros [-> | (r & -> & Hplace)]; unfold WalletSerializer.get_tokens;
      [| rewrite Hplace]; reflexivity.
Qed.

(** The wallet of user 1 as place 2 sees it: the federated asset only. *)
Example get_tokens_of_user_1 :
  WalletSerializer.get_tokens Demo.honest
    (Some (MkRequest (Some Demo.P2) Demo.meta)) Demo.WU Demo.db0
  = Return [(Demo.FED, 5)].
Proof. reflexivity. Qed.

(** ** The transaction table only grows *)

Lemma appends_bind {A B} (m : M A) (k : A -> M B) :
  appends m -> (forall a, appends (k a)) -> appends (bind m k).
Proof.
  intros Hm Hk db. unfold bind. specialize (Hm db).
  destruct (m db) as [[a | msg | e] db1]; simpl in *; try exact Hm.
  etransitivity; [exact Hm | apply Hk].
Qed.

Lemma appends_same {A} (m : M A) :
  (forall db, transactions (m db).2 = transactions db) -> appends m.
Proof. intros H db. rewrite H. reflexivity. Qed.

Lemma appends_for_each {A} (xs : list A) (body : A -> M unit) :
  (forall x, appends (body x)) -> appends (for_each xs body).
Proof.
  intros Hbody. induction xs as [| x xs IH]; simpl.
  - apply appends_same. reflexivity.
  - apply appends_bind; [apply Hbody | intros _; exact IH].
Qed.

Section AppendOnly.

Context (Mo : Models).

Lemma appends_create d : appends (TransactionW2W.Transaction_objects_create Mo d).
Proof. intros db. simpl. apply prefix_app_r. reflexivity. Qed.

Lemma appends_check_hash t : appends (TransactionW2W.check_hash Mo t).
Proof.
  apply appends_same. intros db. unfold TransactionW2W.check_hash.
  destruct (verify_hash Mo db t); reflexivity.
Qed.

Lemma appends_validate req a : appends (TransactionW2W.validate Mo req a).
Proof.
  unfold TransactionW2W.validate.
  apply appends_bind; [apply appends_same; reflexivity | intros place].
  apply appends_bind; [apply appends_same; reflexivity | intros act].
  apply appends_bind.
  { destruct (TransactionW2W.place_is_party Mo place _ act);
      apply appends_same; reflexivity. }
  intros _. apply appends_bind.
  { apply appends_same. intros db.
    rewrite check_sender_token_db. reflexivity. }
  intros _. apply appends_bind.
  { apply appends_same. intros db.
    apply get_or_create_receiver_token_transactions. }
  intros _. apply appends_bind.
  { unfold TransactionW2W.mint_if_refill. case_bool_decide.
    - apply appends_bind; [apply appends_create | intros t; apply appends_check_hash].
    - apply appends_same. reflexivity. }
  intros _. apply appends_bind; [apply appends_create | intros t].
  apply appends_bind; [apply appends_check_hash |].
  intros _. apply appends_same. reflexivity.
Qed.

Lemma appends_is_valid req a : appends (TransactionW2W.is_valid Mo req a).
Proof.
  unfold TransactionW2W.is_valid.
  apply appends_bind; [apply appends_same; reflexivity |].
  intros _. apply appends_validate.
Qed.

(** X19: no validator deletes or rewrites a transaction. Whatever its
    outcome (accepted, refused or failed), the transaction table after a
    wallet-to-wallet request, after a refund or void, after a badge and
    after the fusion of a card starts with the rows it held before, in the
    same order. *)
Theorem transactions_only_grow :
  (forall req a, appends (TransactionW2W.is_valid Mo req a))
  /\ (forall req a, appends (CardRefundOrVoidValidator.is_valid Mo req a))
  /\ (forall req a, appends (BadgeValidator.validate Mo req a))
  /\ (forall req c w u, appends (WalletCreateSerializer.fusion Mo req c w u)).
Proof.
  split; [exact appends_is_valid |]. split; [| split].
  - intros req a. unfold CardRefundOrVoidValidator.is_valid.
    apply appends_bind.
    { destruct (CardRefundOrVoidValidator.action a) as [v |];
        [| apply appends_same; reflexivity].
      apply appends_bind; [| intros _]; apply appends_same; reflexivity. }
    intros _. unfold CardRefundOrVoidValidator.validate.
    destruct (request_place req) as [place |]; [| apply appends_same; reflexivity].
    apply appends_bind.
    { destruct (or_else _ _) as [pc |]; [destruct (mem pc _) |];
        apply appends_same; reflexivity. }
    intros _. destruct (or_else _ _) as [uc |]; [| apply appends_same; reflexivity].
    apply appends_bind; [apply appends_same; reflexivity | intros swept].
    apply appends_bind.
    { apply appends_for_each. intros av.
      unfold CardRefundOrVoidValidator.refund_token.
      apply appends_bind; [apply appends_same; reflexivity | intros d].
      apply appends_bind; [apply appends_create |].
      intros _. apply appends_same. reflexivity. }
    intros _. case_bool_decide; apply appends_same; reflexivity.
  - intros req a. unfold BadgeValidator.validate.
    destruct (request_place req) as [place |]; [| apply appends_same; reflexivity].
    apply appends_bind; [apply appends_same; reflexivity |].
    intros d. apply appends_create.
  - intros req c w u. unfold WalletCreateSerializer.fusion.
    apply appends_bind.
    { case_bool_decide; [| apply appends_same; reflexivity].
      apply appends_bind; [apply appends_same; reflexivity | intros to_fuse].
      apply appends_for_each. intros av.
      unfold WalletCreateSerializer.fuse_token.
      destruct req as [r |]; [| apply appends_same; reflexivity].
      apply appends_bind; [apply appends_is_valid |].
      intros _. apply appends_same. reflexivity. }
    intros _. apply appends_same. intros db.
    unfold WalletCreateSerializer.retire_wallet_ephemere.
    destruct (card_wallet_ephemere db !! c) as [w' |]; [| reflexivity].
    destruct (positive_tokens db w'); reflexivity.
Qed.

End AppendOnly.

(** ** Where the refusals of a transaction come from *)

Section RefusalFacts.

Context (Mo : Models).
Import TransactionW2W.

(** Case analysis of a hypothesis on the outcome of a chain of tests. *)
Ltac outcome_cases H :=
  repeat match type of H with
         | context [if ?b then _ else _] => destruct b eqn:?
         | context [match ?x with _ => _ end] => destruct x eqn:?
         end.

Lemma resolve_place_refusal req s a msg :
  resolve_place Mo req s a = ValidationError msg -> msg = "Place not found".
Proof.
  unfold resolve_place. intros H. outcome_cases H; try discriminate.
  injection H as <-. reflexivity.
Qed.

Lemma check_sender_token_refusal s act db msg :
  (check_sender_token s act db).1 = ValidationError msg ->
  (msg = "Sender token does not exist"
   /\ tokens db !! (self_sender s, self_asset s) = None)
  \/ (msg = "Not enough token on sender wallet"
      /\ act ∈ [Transaction.SALE; Transaction.TRANSFER]
      /\ exists value, tokens db !! (self_sender s, self_asset s) = Some value
                       /\ value < self_amount s).
Proof.
  unfold check_sender_token.
  destruct (tokens db !! (self_sender s, self_asset s)) as [value |].
  - destruct (Z.ltb_spec value (self_amount s)) as [Hlt | Hge]; simpl;
      [| discriminate].
    case_bool_decide as Hact; [| discriminate].
    intros [= <-]. right. split; [reflexivity |]. split; [exact Hact |].
    exists value. auto.
  - intros [= <-]. left. auto.
Qed.

(** X20: the test "sender or receiver are a place" that [validate]
    makes after the classification never refuses a request, since every
    classified request passes it. When [validate] answers "Unauthorized",
    the answer is that of the classification of a sale: the place's wallet
    is the receiver and not the sender, a primary card of the place and a
    user card are presented, and the receiver is not in the authority
    delegation of the user card. Nothing is written. *)
Theorem unauthorized_means_no_delegation req a db db' :
  validate Mo req a db = (ValidationError "Unauthorized", db') ->
  db' = db
  /\ exists place pc uc,
       resolve_place Mo req (self_of a) a = Return place
       /\ place_wallet Mo place = receiver a
       /\ place_wallet Mo place <> sender a
       /\ self_primary_card (self_of a) = Some pc
       /\ pc ∈ place_primary_cards Mo place
       /\ self_user_card (self_of a) = Some uc
       /\ receiver a ∉ card_get_authority_delegation Mo uc.
Proof.
  rewrite validate_run.
  destruct (resolve_place Mo req (self_of a) a) as [place | msg | e] eqn:Hplace.
  - destruct (get_action Mo db place (self_of a) a) as [act | msg | e] eqn:Hact.
    + rewrite after_classification_run.
      destruct (check_sender_token (self_of a) act db).1 as [[] | msg | e] eqn:Hc.
      * cbv zeta. intros H. outcome_cases H; discriminate.
      * intros [= -> _].
        apply check_sender_token_refusal in Hc as [[? _] | [? _]]; discriminate.
      * discriminate.
    + intros [= -> <-]. split; [reflexivity |].
      unfold get_action, mem in Hact. simpl in Hact.
      destruct (is_stripe_refill Mo (self_of a) a); [discriminate |].
      case_bool_decide as Hs; [outcome_cases Hact; discriminate |].
      case_bool_decide as Hr; [| outcome_cases Hact; discriminate].
      destruct (or_else (primary_card_uuid a) (primary_card_fisrtTagId a))
        as [pc |] eqn:Hpc; [| discriminate].
      case_bool_decide as Hin; [| discriminate]. simpl in Hact.
      destruct (or_else (user_card_uuid a) (user_card_firstTagId a))
        as [uc |] eqn:Huc; [| discriminate].
      case_bool_decide as Hd; simpl in Hact.
      { case_bool_decide; discriminate. }
      exists place, pc, uc. simpl. rewrite Hpc, Huc. auto 10.
    + discriminate.
  - intros [= -> _]. apply resolve_place_refusal in Hplace. discriminate.
  - discriminate.
Qed.

(** X21: the two refusals about the sender's token say what they mean.
    "Sender token does not exist" is answered only for a classified
    request whose sender has no token of the asset; "Not enough token on
    sender wallet" only for a request classified SALE whose sender's token
    holds less than the amount: no other action is ever refused for its
    balance. Nothing is written in either case. *)
Theorem token_refusals_explained req a db msg db' :
  validate Mo req a db = (ValidationError msg, db') ->
  (msg = "Sender token does not exist" ->
   db' = db
   /\ tokens db !! (sender a, asset a) = None
   /\ exists place act,
        resolve_place Mo req (self_of a) a = Return place
        /\ get_action Mo db place (self_of a) a = Return act)
  /\ (msg = "Not enough token on sender wallet" ->
      db' = db
      /\ exists place value,
           resolve_place Mo req (self_of a) a = Return place
           /\ get_action Mo db place (self_of a) a = Return Transaction.SALE
           /\ tokens db !! (sender a, asset a) = Some value
           /\ value < amount a).
Proof.
  rewrite validate_run.
  destruct (resolve_place Mo req (self_of a) a) as [place | msg0 | e] eqn:Hplace.
  - destruct (get_action Mo db place (self_of a) a) as [act | msg0 | e] eqn:Hact.
    + rewrite after_classification_run.
      destruct (check_sender_token (self_of a) act db).1 as [[] | msg0 | e] eqn:Hc.
      * cbv zeta. intros H.
        split; intros ->; outcome_cases H; discriminate.
      * intros [= <- <-].
        apply check_sender_token_refusal in Hc
          as [[-> Hnone] | (-> & Hin & value & Hv & Hlt)].
        -- split; [| intros [=]].
           intros _. split; [reflexivity |]. split; [exact Hnone |]. eauto.
        -- split; [intros [=] |].
           intros _. split; [reflexivity |]. exists place, value.
           split; [reflexivity |]. split; [| auto].
           assert (act = Transaction.SALE) as ->; [| exact Hact].
           clear Hv Hlt. unfold get_action in Hact.
           outcome_cases Hact; try discriminate; injection Hact as <-;
             try reflexivity;
             rewrite !elem_of_cons, elem_of_nil in Hin;
             destruct Hin as [? | [? | []]]; discriminate.
      * discriminate.
    + intros [= <- <-]. unfold get_action in Hact.
      split; intros ->; outcome_cases Hact; discriminate.
    + discriminate.
  - intros [= <- _]. apply resolve_place_refusal in Hplace as ->.
    split; discriminate.
  - discriminate.
Qed.

End RefusalFacts.

(** The sale of 4 units when the card of user 1 has delegated no
    authority: refused as "Unauthorized", for want of a delegation. *)
Lemma unauthorized_means_no_delegation_witness :
  let a := Demo.w2w Demo.WU Demo.WP Demo.LOCAL 4 None in
  TransactionW2W.validate Demo.strangers Demo.req a Demo.db0
  = (ValidationError "Unauthorized", Demo.db0)
  /\ Demo.WP ∉ card_get_authority_delegation Demo.strangers Demo.C2.
Proof.
  intros a.
  assert (TransactionW2W.validate Demo.strangers Demo.req a Demo.db0
          = (ValidationError "Unauthorized", Demo.db0)) as Hrun
    by (vm_compute; reflexivity).
  split; [exact Hrun |].
  destruct (unauthorized_means_no_delegation Demo.strangers Demo.req a
              Demo.db0 Demo.db0 Hrun)
    as (_ & place & pc & uc & _ & _ & _ & _ & _ & Huc & Hd).
  injection Huc as <-. exact Hd.
Defined.

(** User 1 pays 100 with 6 in the wallet: the refusal names a sale and a
    balance below the amount. *)
Lemma token_refusals_explained_witness :
  let a := Demo.w2w Demo.WU Demo.WP Demo.LOCAL 100 None in
  TransactionW2W.get_action Demo.honest Demo.db0 Demo.P (TransactionW2W.self_of a) a
  = Return Transaction.SALE
  /\ exists value, tokens Demo.db0 !! (Demo.WU, Demo.LOCAL) = Some value
                   /\ value < 100.
Proof.
  intros a. split; [reflexivity |].
  destruct (proj2 (token_refusals_explained Demo.honest Demo.req a Demo.db0
                     "Not enough token on sender wallet" Demo.db0 eq_refl)
              eq_refl)
    as (_ & place & value & _ & _ & Hv & Hlt).
  exists value. split; [exact Hv | exact Hlt].
Defined.
